(** * OOTP rating -> stat formula analyzer (tools/analyze_ootp_data.py)

    A shallow embedding of the formula analyzer: the BABIP scale converter,
    the CSV table loader of [FormulaAnalyzer.__init__], the two regression
    fitters, the formula renderer and the analysis driver.

    Numbers are exact rationals ([Q]); a Python float that may be NaN is a
    [pyfloat].  Binary64 rounding is not modelled. *)

From Stdlib Require Import String Ascii DecimalString DecimalN DecimalPos QArith
  Qabs Qround Lqa Lia ZArith Bool Sorted Permutation List.
Import ListNotations.
Local Open Scope Q_scope.

(** ** Numbers *)

(** A float64 cell: a finite value or NaN (pandas' missing value). *)
Inductive pyfloat : Type :=
| Fin (q : Q)
| NaN.

Definition isnan (x : pyfloat) : bool :=
  match x with NaN => true | Fin _ => false end.

Definition notna (x : pyfloat) : bool := negb (isnan x).

(** ** Scale converter (lines 25-31) *)

Module Babip.



End Babip.

(** ** Table loader (lines 35-40) *)

(** Exceptions the script can raise. *)
Inductive exn : Type :=
| KeyError (key : string)
| ValueError (msg : string)
| IndexError.

Inductive result (A : Type) : Type :=
| Ok (a : A)
| Raise (e : exn).
Arguments Ok {A} a.
Arguments Raise {A} e.

Definition bind {A B} (m : result A) (k : A -> result B) : result B :=
  match m with
  | Ok a => k a
  | Raise e => Raise e
  end.

Declare Scope result_scope.
Delimit Scope result_scope with res.
Notation "x <- m ;; k" := (bind m (fun x => k))
  (at level 61, m at next level, right associativity) : result_scope.
Notation "' pat <- m ;; k" := (bind m (fun x => match x with pat => k end))
  (at level 61, pat pattern, m at next level, right associativity)
  : result_scope.
Open Scope result_scope.

(** A cell as [pd.read_csv] delivers it: a number (NaN when the field is
    empty) or, in a column of dtype object, the text of the field. *)
Inductive cell : Type :=
| Num (x : pyfloat)
| Str (s : string).

Record DataFrame (A : Type) : Type := mkFrame {
  columns : list string;
  rows : list (list A)
}.
Arguments mkFrame {A} _ _.
Arguments columns {A} _.
Arguments rows {A} _.


Definition cell_isna (c : cell) : bool :=
  match c with
  | Num x => isnan x
  | Str _ => false
  end.

Section Loader.

(** The number parser of [pd.to_numeric]: [None] for text that is not a
    number. *)
Variable parse_number : string -> option Q.

(** [pd.to_numeric(..., errors='coerce')] on one cell. *)
Definition to_numeric (c : cell) : pyfloat :=
  match c with
  | Num x => x
  | Str s => match parse_number s with
             | Some q => Fin q
             | None => NaN
             end
  end.

(** [df.dropna(how='all')] *)
Definition dropna_all (df : DataFrame cell) : DataFrame cell :=
  mkFrame (columns df) (filter (fun r => negb (forallb cell_isna r)) (rows df)).

(** [df.apply(pd.to_numeric, errors='coerce')]: column by column, which is
    cell by cell. *)
Definition apply_to_numeric (df : DataFrame cell) : DataFrame pyfloat :=
  mkFrame (columns df) (map (map to_numeric) (rows df)).

(** [df.dropna()] *)
Definition dropna (df : DataFrame pyfloat) : DataFrame pyfloat :=
  mkFrame (columns df) (filter (forallb notna) (rows df)).

(** Lines 36-40, after [pd.read_csv]. *)
Definition load (raw : DataFrame cell) : DataFrame pyfloat :=
  dropna (apply_to_numeric (dropna_all raw)).

(** A cell that is empty or does not coerce to a number. *)
Definition bad_cell (c : cell) : bool := isnan (to_numeric c).

(** A row with at least one such cell. *)
Definition malformed (r : list cell) : bool := existsb bad_cell r.

End Loader.

(** ** Text formatting (Python's format mini-language, as far as used) *)

Module Fmt.

Local Open Scope string_scope.

Fixpoint repeat_string (s : string) (n : nat) : string :=
  match n with
  | O => ""
  | S n' => s ++ repeat_string s n'
  end.

(** [f"{s:<w}"] *)
Definition ljust (w : nat) (s : string) : string :=
  s ++ repeat_string " " (w - String.length s).

(** [f"{s:>w}"] *)
Definition rjust (w : nat) (s : string) : string :=
  repeat_string " " (w - String.length s) ++ s.

Definition upper_ascii (c : ascii) : ascii :=
  let n := nat_of_ascii c in
  if andb (Nat.leb 97 n) (Nat.leb n 122) then ascii_of_nat (n - 32) else c.

(** [s.upper()], on ASCII text. *)
Fixpoint upper (s : string) : string :=
  match s with
  | EmptyString => EmptyString
  | String c s' => String (upper_ascii c) (upper s')
  end.

(** [" ".join(l)] and the like. *)
Fixpoint join (sep : string) (l : list string) : string :=
  match l with
  | [] => ""
  | [s] => s
  | s :: l' => s ++ sep ++ join sep l'
  end.

Definition digits (n : Z) : string :=
  DecimalString.NilZero.string_of_uint (N.to_uint (Z.to_N n)).

(** Round a non-negative rational to the nearest integer, ties to even. *)
Definition round_half_even (q : Q) : Z :=
  let f := Qfloor q in
  let r := q - inject_Z f in
  match Qcompare r (1 # 2) with
  | Lt => f
  | Gt => (f + 1)%Z
  | Eq => if Z.even f then f else (f + 1)%Z
  end.

(** The digits of [f"{abs(q):.{d}f}"]. *)
Definition fixed_abs (d : nat) (q : Q) : string :=
  let scale := (10 ^ Z.of_nat d)%Z in
  let n := round_half_even (Qabs q * inject_Z scale) in
  let int_part := digits (n / scale) in
  match d with
  | O => int_part
  | _ =>
      let frac := digits (n mod scale) in
      int_part ++ "." ++ repeat_string "0" (d - String.length frac) ++ frac
  end.

(** [f"{x:.{d}f}"]; with [plus], [f"{x:+.{d}f}"]. *)
Definition fixed (plus : bool) (d : nat) (x : pyfloat) : string :=
  match x with
  | NaN => (if plus then "+" else "") ++ "nan"
  | Fin q =>
      (if Qlt_le_dec q 0 then "-" else if plus then "+" else "")
        ++ fixed_abs d q
  end.

End Fmt.

(** ** Float arithmetic with NaN *)

Definition fsub (x y : pyfloat) : pyfloat :=
  match x, y with
  | Fin a, Fin b => Fin (a - b)
  | _, _ => NaN
  end.

Definition fmul (x y : pyfloat) : pyfloat :=
  match x, y with
  | Fin a, Fin b => Fin (a * b)
  | _, _ => NaN
  end.

(** [x > y]: false as soon as one side is NaN. *)
Definition fgt (x y : pyfloat) : bool :=
  match x, y with
  | Fin a, Fin b => if Qlt_le_dec b a then true else false
  | _, _ => false
  end.

Definition Qgtb (a b : Q) : bool := if Qlt_le_dec b a then true else false.

(** [Series.min()] and [Series.max()]: NaN is skipped, an empty column
    gives NaN. *)
Definition series_fold (pick : Q -> Q -> Q) (l : list pyfloat) : pyfloat :=
  fold_left (fun acc x =>
               match acc, x with
               | _, NaN => acc
               | NaN, Fin q => Fin q
               | Fin a, Fin q => Fin (pick a q)
               end) l NaN.

Definition series_min : list pyfloat -> pyfloat :=
  series_fold (fun a b => if Qlt_le_dec b a then b else a).
Definition series_max : list pyfloat -> pyfloat :=
  series_fold (fun a b => if Qlt_le_dec a b then b else a).

(** ** Column access *)

Fixpoint index_of (k : string) (l : list string) : option nat :=
  match l with
  | [] => None
  | c :: l' => if String.eqb k c then Some O
               else option_map S (index_of k l')
  end.

(** [col in df.columns] *)
Definition has_column {A} (df : DataFrame A) (col : string) : bool :=
  match index_of col (columns df) with Some _ => true | None => false end.

(** [df[col]]: the column, or KeyError. *)
Definition getitem (df : DataFrame pyfloat) (col : string)
  : result (list pyfloat) :=
  match index_of col (columns df) with
  | None => Raise (KeyError col)
  | Some i => Ok (map (fun r => nth i r NaN) (rows df))
  end.

Fixpoint indices_of (cols : list string) (l : list string)
  : result (list nat) :=
  match cols with
  | [] => Ok []
  | c :: cols' =>
      match index_of c l with
      | None => Raise (KeyError c)
      | Some i => idx <- indices_of cols' l ;; Ok (i :: idx)
      end
  end.

(** [df[cols].values]: one row of the matrix per row of the frame. *)
Definition getitem_list (df : DataFrame pyfloat) (cols : list string)
  : result (list (list pyfloat)) :=
  idx <- indices_of cols (columns df) ;;
  Ok (map (fun r => map (fun i => nth i r NaN) idx) (rows df)).

(** ** Vectors and matrices over Q *)

Module Vec.

Fixpoint dot (u v : list Q) : Q :=
  match u, v with
  | a :: u', b :: v' => a * b + dot u' v'
  | _, _ => 0
  end.

Definition sum (v : list Q) : Q := fold_right Qplus 0 v.

Definition mean (v : list Q) : Q := sum v / inject_Z (Z.of_nat (length v)).

Definition norm2 (v : list Q) : Q := dot v v.

Fixpoint sub (u v : list Q) : list Q :=
  match u, v with
  | a :: u', b :: v' => (a - b) :: sub u' v'
  | _, _ => []
  end.

Definition matvec (A : list (list Q)) (w : list Q) : list Q :=
  map (fun r => dot r w) A.

End Vec.

(** ** The scikit-learn and pandas calls the analyzer makes *)

(** A fitted linear estimator: [coef_] and [intercept_]. *)
Record Model : Type := mkModel {
  coef_ : list Q;
  intercept_ : Q
}.

(** The transformer [PolynomialFeatures(degree=d, include_bias=False)]. *)
Record PolynomialFeatures : Type := mkPoly {
  degree : nat
}.

Module Sklearn.

Local Open Scope string_scope.

Definition finite_row (r : list pyfloat) : option (list Q) :=
  fold_right (fun x acc =>
                match x, acc with
                | Fin q, Some l => Some (q :: l)
                | _, _ => None
                end) (Some []) r.

Definition finite_rows (X : list (list pyfloat)) : option (list (list Q)) :=
  fold_right (fun r acc =>
                match finite_row r, acc with
                | Some r', Some l => Some (r' :: l)
                | _, _ => None
                end) (Some []) X.

(** Input validation of an estimator: at least one sample, no NaN. *)
Definition check_array (X : list (list pyfloat)) : result (list (list Q)) :=
  match X with
  | [] => Raise (ValueError "Found array with 0 sample(s)")
  | _ => match finite_rows X with
         | Some Xq => Ok Xq
         | None => Raise (ValueError "Input contains NaN")
         end
  end.

Definition check_vector (y : list pyfloat) : result (list Q) :=
  match y with
  | [] => Raise (ValueError "Found array with 0 sample(s)")
  | _ => match finite_row y with
         | Some yq => Ok yq
         | None => Raise (ValueError "Input contains NaN")
         end
  end.

Definition check_consistent_length {A B} (u : list A) (v : list B)
  : result unit :=
  if Nat.eqb (length u) (length v) then Ok tt
  else Raise (ValueError "Found input variables with inconsistent numbers of samples").

(** [model.predict(X)]: [X @ coef_ + intercept_]. *)
Definition predict (model : Model) (X : list (list pyfloat))
  : result (list pyfloat) :=
  Xq <- check_array X ;;
  if forallb (fun r => Nat.eqb (length r) (length (coef_ model))) Xq
  then Ok (map (fun r => Fin (Vec.dot r (coef_ model) + intercept_ model)) Xq)
  else Raise (ValueError "X has a different number of features than the estimator").

Definition sum_sq (v : list Q) : Q := Vec.sum (map (fun a => a * a) v).

(** [r2_score(y_true, y_pred)]: [1 - SS_res / SS_tot]; NaN for fewer than
    two samples; for a constant [y_true], 1 when the prediction is exact
    and 0 otherwise. *)
Definition r2_score (y_true y_pred : list pyfloat) : result pyfloat :=
  y <- check_vector y_true ;;
  p <- check_vector y_pred ;;
  _ <- check_consistent_length y p ;;
  if Nat.ltb (length p) 2 then Ok NaN
  else
    let numerator := sum_sq (Vec.sub y p) in
    let ybar := Vec.mean y in
    let denominator := sum_sq (map (fun a => a - ybar) y) in
    if Qeq_bool denominator 0
    then Ok (Fin (if Qeq_bool numerator 0 then 1 else 0))
    else Ok (Fin (1 - numerator / denominator)).

(** [mean_absolute_error(y_true, y_pred)] *)
Definition mean_absolute_error (y_true y_pred : list pyfloat)
  : result pyfloat :=
  y <- check_vector y_true ;;
  p <- check_vector y_pred ;;
  _ <- check_consistent_length y p ;;
  Ok (Fin (Vec.mean (map Qabs (Vec.sub y p)))).

(** The monomials of total degree [k] of a row, in scikit-learn's order
    (combinations with replacement of the feature indices). *)
Fixpoint monomials (k : nat) (x : list Q) : list Q :=
  match k with
  | O => [1]
  | S k' =>
      (fix from (l : list Q) : list Q :=
         match l with
         | [] => []
         | a :: t => (map (Qmult a) (monomials k' l) ++ from t)%list
         end) x
  end.

(** One row of [poly.fit_transform(X)] with [include_bias=False]: the
    monomials of degree 1 up to [degree]. *)
Definition poly_row (poly : PolynomialFeatures) (x : list Q) : list Q :=
  concat (map (fun k => monomials k x) (seq 1 (degree poly))).

Definition fit_transform (poly : PolynomialFeatures)
  (X : list (list pyfloat)) : result (list (list pyfloat)) :=
  Xq <- check_array X ;;
  Ok (map (fun r => map Fin (poly_row poly r)) Xq).

End Sklearn.

(** The numerical routines taken as given: the two [fit] methods. *)
Record Estimators : Type := mkEstimators {
  (** [LinearRegression().fit(X, y)] *)
  LinearRegression_fit : list (list pyfloat) -> list pyfloat -> result Model;
  (** [Ridge(alpha=a).fit(X, y)] *)
  Ridge_fit : Q -> list (list pyfloat) -> list pyfloat -> result Model
}.

(** The pandas calls taken as given. *)
Record Pandas : Type := mkPandas {
  (** [pd.read_csv(path)] *)
  read_csv : string -> result (DataFrame cell);
  (** the number parser of [pd.to_numeric] *)
  parse_number : string -> option Q;
  (** [x.corr(y)], Pearson *)
  corr : list pyfloat -> list pyfloat -> pyfloat
}.

(** ** Programs that print: standard output threaded through, an
    exception keeps what was printed before it *)

Definition M (A : Type) : Type := list string -> list string * result A.

Definition ret {A} (a : A) : M A := fun out => (out, Ok a).

Definition mbind {A B} (m : M A) (k : A -> M B) : M B :=
  fun out =>
    match m out with
    | (out', Ok a) => k a out'
    | (out', Raise e) => (out', Raise e)
    end.

Definition lift {A} (r : result A) : M A := fun out => (out, r).

(** [print(s)] *)
Definition print (s : string) : M unit := fun out => (out ++ [s], Ok tt).

Declare Scope io_scope.
Delimit Scope io_scope with io.
Notation "x <- m ;; k" := (mbind m (fun x => k))
  (at level 61, m at next level, right associativity) : io_scope.
Notation "' pat <- m ;; k" := (mbind m (fun x => match x with pat => k end))
  (at level 61, pat pattern, m at next level, right associativity)
  : io_scope.
Notation "m ;;; k" := (mbind m (fun _ => k))
  (at level 61, right associativity) : io_scope.

(** A [for] loop carrying the variables it updates. *)
Fixpoint foldM {A S} (body : S -> A -> M S) (l : list A) (s : S) : M S :=
  match l with
  | [] => ret s
  | a :: l' => mbind (body s a) (foldM body l')
  end.

Definition for_each {A} (l : list A) (body : A -> M unit) : M unit :=
  foldM (fun _ a => body a) l tt.

(** ** Python dictionaries: insertion-ordered, one entry per key *)

Fixpoint dict_get {V} (d : list (string * V)) (k : string) : option V :=
  match d with
  | [] => None
  | (k', v) :: d' => if String.eqb k k' then Some v else dict_get d' k
  end.

(** [d[k] = v] *)
Fixpoint dict_set {V} (d : list (string * V)) (k : string) (v : V)
  : list (string * V) :=
  match d with
  | [] => [(k, v)]
  | (k', v') :: d' =>
      if String.eqb k k' then (k', v) :: d' else (k', v') :: dict_set d' k v
  end.

(** [k in d] *)
Definition dict_mem {V} (d : list (string * V)) (k : string) : bool :=
  match dict_get d k with Some _ => true | None => false end.

(** ** The analyzer (lines 18-22 and 34-224) *)

Definition nl : string := String (ascii_of_nat 10) EmptyString.

Definition INPUT_COLS : list string :=
  ["stuff"; "control"; "hra"; "movement"; "babip"]%string.

Definition OUTPUT_COLS : list string :=
  ["hits allowed"; "hr"; "bb"; "k"; "ip"]%string.

Record FormulaAnalyzer : Type := mkAnalyzer {
  df : DataFrame pyfloat;
  formulas : list (string * string);
  models : list (string * Model)
}.

(** One entry of the list [run_analysis] returns. *)
Record Summary : Type := mkSummary {
  stat : string;
  r2 : pyfloat;
  mae : pyfloat;
  formula : string
}.

Definition str_nat (n : nat) : string := Fmt.digits (Z.of_nat n).

Definition str_int (z : Z) : string :=
  ((if Z.ltb z 0 then "-" else "") ++ Fmt.digits (Z.abs z))%string.

Section Analyzer.

Variable sk : Estimators.
Variable pd : Pandas.

Local Open Scope string_scope.
Local Open Scope io_scope.

(** Lines 35-50. *)
Definition __init__ (csv_path : string) : M FormulaAnalyzer :=
  raw <- lift (read_csv pd csv_path) ;;
  let self := mkAnalyzer (load (parse_number pd) raw) [] [] in
  print ("Loaded " ++ str_nat (length (rows (df self))) ++ " rows of data" ++ nl) ;;;
  print "Input ranges:" ;;;
  for_each INPUT_COLS (fun col =>
    if has_column (df self) col then
      c <- lift (getitem (df self) col) ;;
      print ("  " ++ col ++ ": " ++ Fmt.fixed false 0 (series_min c)
               ++ " - " ++ Fmt.fixed false 0 (series_max c))
    else ret tt) ;;;
  print "" ;;;
  ret self.

(** Lines 52-64. *)
Definition analyze_linear (self : FormulaAnalyzer) (output_col : string)
  : result (Model * pyfloat * pyfloat) :=
  (X <- getitem_list (df self) INPUT_COLS ;;
   y <- getitem (df self) output_col ;;
   model <- LinearRegression_fit sk X y ;;
   y_pred <- Sklearn.predict model X ;;
   r2 <- Sklearn.r2_score y y_pred ;;
   mae <- Sklearn.mean_absolute_error y y_pred ;;
   Ok (model, r2, mae))%res.

(** Lines 66-81. *)
Definition analyze_polynomial (self : FormulaAnalyzer) (output_col : string)
  (degree : nat) : result (Model * PolynomialFeatures * pyfloat * pyfloat) :=
  (X <- getitem_list (df self) INPUT_COLS ;;
   y <- getitem (df self) output_col ;;
   let poly := mkPoly degree in
   X_poly <- Sklearn.fit_transform poly X ;;
   model <- Ridge_fit sk 1 X_poly y ;;
   y_pred <- Sklearn.predict model X_poly ;;
   r2 <- Sklearn.r2_score y y_pred ;;
   mae <- Sklearn.mean_absolute_error y y_pred ;;
   Ok (model, poly, r2, mae))%res.

(** The negligibility threshold of line 91. *)
Definition threshold : Q := 1 # 1000.

(** Line 92-93: [f"{sign} {abs(coef):.4f}*{col}"]. *)
Definition term (coef : Q) (col : string) : string :=
  let sign := if Qgtb coef 0 then "+" else "-" in
  sign ++ " " ++ Fmt.fixed false 4 (Fin (Qabs coef)) ++ "*" ++ col.

(** Lines 88-93: the list [terms], from position [i] of [INPUT_COLS] on. *)
Fixpoint formula_terms (coeffs : list Q) (i : nat) (cols : list string)
  : result (list string) :=
  match cols with
  | [] => Ok []
  | col :: cols' =>
      match nth_error coeffs i with
      | None => Raise IndexError
      | Some coef =>
          (rest <- formula_terms coeffs (S i) cols' ;;
           if Qgtb (Qabs coef) threshold
           then Ok (term coef col :: rest)
           else Ok rest)%res
      end
  end.

(** Lines 83-96. *)
Definition format_formula (model : Model) (output_name : string)
  : result string :=
  (terms <- formula_terms (coef_ model) 0 INPUT_COLS ;;
   Ok (output_name ++ " = " ++ Fmt.fixed false 2 (Fin (intercept_ model))
         ++ " " ++ Fmt.join " " terms))%res.

(** Lines 98-116. *)
Definition analyze_single_variable_effects (self : FormulaAnalyzer)
  (output_col : string) : M unit :=
  print (nl ++ "  Individual variable effects on " ++ output_col ++ ":") ;;;
  for_each INPUT_COLS (fun input_col =>
    xs <- lift (getitem (df self) input_col) ;;
    ys <- lift (getitem (df self) output_col) ;;
    let c := corr pd xs ys in
    X <- lift (getitem_list (df self) [input_col]) ;;
    y <- lift (getitem (df self) output_col) ;;
    model <- lift (LinearRegression_fit sk X y) ;;
    coef <- lift (match coef_ model with
                  | a :: _ => Ok a
                  | [] => Raise IndexError
                  end) ;;
    let direction := if Qgtb coef 0 then "UP" else "DOWN" in
    print ("    " ++ Fmt.ljust 12 input_col ++ ": coef="
             ++ Fmt.fixed true 3 (Fin coef) ++ " (per +1 rating -> "
             ++ direction ++ " " ++ Fmt.fixed false 2 (Fin (Qabs coef))
             ++ " " ++ output_col ++ "), corr=" ++ Fmt.fixed true 3 c)).

Definition rule : string := Fmt.repeat_string "=" 70.

(** Lines 127-169: the body of the loop of [run_analysis]. *)
Definition analyze_column (st : FormulaAnalyzer * list Summary)
  (output_col : string) : M (FormulaAnalyzer * list Summary) :=
  let '(self, results) := st in
  if negb (has_column (df self) output_col) then
    print (nl ++ "Skipping " ++ output_col ++ " - not in data") ;;;
    ret (self, results)
  else
    print (nl ++ rule) ;;;
    print ("Analyzing: " ++ Fmt.upper output_col) ;;;
    print rule ;;;
    '(lin_model, lin_r2, lin_mae) <- lift (analyze_linear self output_col) ;;
    '(poly_model, poly_transform, poly_r2, poly_mae) <-
       lift (analyze_polynomial self output_col 2) ;;
    formula <- lift (format_formula lin_model output_col) ;;
    let self := mkAnalyzer (df self)
                  (dict_set (formulas self) output_col formula)
                  (dict_set (models self) output_col lin_model) in
    print (nl ++ "  LINEAR MODEL:") ;;;
    print ("    R² = " ++ Fmt.fixed false 4 lin_r2 ++ " (explains "
             ++ Fmt.fixed false 1 (fmul lin_r2 (Fin 100)) ++ "% of variance)") ;;;
    print ("    MAE = " ++ Fmt.fixed false 2 lin_mae ++ " (average error: ±"
             ++ Fmt.fixed false 1 lin_mae ++ ")") ;;;
    print (nl ++ "    Formula:") ;;;
    print ("    " ++ formula) ;;;
    print (nl ++ "  POLYNOMIAL MODEL (degree=2):") ;;;
    print ("    R² = " ++ Fmt.fixed false 4 poly_r2 ++ " (explains "
             ++ Fmt.fixed false 1 (fmul poly_r2 (Fin 100)) ++ "% of variance)") ;;;
    print ("    MAE = " ++ Fmt.fixed false 2 poly_mae) ;;;
    let improvement := fsub poly_r2 lin_r2 in
    (if fgt improvement (Fin (2 # 100)) then
       print ("    -> Polynomial is notably better (+"
                ++ Fmt.fixed false 3 improvement ++ " R²)")
     else
       print ("    -> Linear is sufficient (polynomial only +"
                ++ Fmt.fixed false 3 improvement ++ " R²)")) ;;;
    analyze_single_variable_effects self output_col ;;;
    ret (self, (results ++ [mkSummary output_col lin_r2 lin_mae formula])%list).

(** Lines 118-171. *)
Definition run_analysis (self : FormulaAnalyzer)
  : M (FormulaAnalyzer * list Summary) :=
  print rule ;;;
  print "OOTP RATING -> STAT FORMULA ANALYSIS" ;;;
  print rule ;;;
  foldM analyze_column OUTPUT_COLS (self, []).

(** Lines 173-188. *)
Definition print_summary (self : FormulaAnalyzer) : M unit :=
  print (nl ++ rule) ;;;
  print "SUMMARY: DERIVED FORMULAS" ;;;
  print rule ;;;
  print (nl ++ "Note: BABIP in these formulas uses editor scale (1-250).") ;;;
  print "      To use with UI scale (20-80), convert first:" ;;;
  print "      babip_editor = 1 + (babip_ui - 20) * 249 / 60" ;;;
  print "" ;;;
  for_each (formulas self) (fun '(output_col, formula) =>
    model <- lift (match dict_get (models self) output_col with
                   | Some m => Ok m
                   | None => Raise (KeyError output_col)
                   end) ;;
    X <- lift (getitem_list (df self) INPUT_COLS) ;;
    y_pred <- lift (Sklearn.predict model X) ;;
    y <- lift (getitem (df self) output_col) ;;
    r2 <- lift (Sklearn.r2_score y y_pred) ;;
    print formula ;;;
    print ("  (R² = " ++ Fmt.fixed false 3 r2 ++ ")" ++ nl)).

(** Lines 190-210. *)
Definition print_coefficient_table (self : FormulaAnalyzer) : M unit :=
  print (nl ++ rule) ;;;
  print "COEFFICIENT TABLE (for implementation)" ;;;
  print rule ;;;
  let header :=
    fold_left (fun h col => h ++ " " ++ Fmt.rjust 10 col) INPUT_COLS
      (Fmt.ljust 15 "Stat" ++ " " ++ Fmt.rjust 10 "Intercept") in
  print header ;;;
  print (Fmt.repeat_string "-" (String.length header)) ;;;
  for_each OUTPUT_COLS (fun output_col =>
    match dict_get (models self) output_col with
    | None => ret tt
    | Some model =>
        print
          (fold_left
             (fun row coef =>
                row ++ " " ++ Fmt.rjust 10 (Fmt.fixed false 4 (Fin coef)))
             (coef_ model)
             (Fmt.ljust 15 output_col ++ " "
                ++ Fmt.rjust 10 (Fmt.fixed false 2 (Fin (intercept_ model)))))
    end).

(** Lines 212-224; the ratings are the integers the script passes. *)
Definition test_prediction (self : FormulaAnalyzer)
  (stuff control hra movement babip : Z) : M unit :=
  print (nl ++ rule) ;;;
  print "PREDICTION TEST" ;;;
  print ("  Ratings: stuff=" ++ str_int stuff ++ ", control=" ++ str_int control
           ++ ", hra=" ++ str_int hra ++ ", movement=" ++ str_int movement
           ++ ", babip=" ++ str_int babip) ;;;
  print rule ;;;
  let X := [map (fun z => Fin (inject_Z z))
              [stuff; control; hra; movement; babip]] in
  for_each OUTPUT_COLS (fun output_col =>
    match dict_get (models self) output_col with
    | None => ret tt
    | Some model =>
        p <- lift (Sklearn.predict model X) ;;
        pred <- lift (match p with
                      | a :: _ => Ok a
                      | [] => Raise IndexError
                      end) ;;
        print ("  " ++ Fmt.ljust 15 output_col ++ ": "
                 ++ Fmt.rjust 6 (Fmt.fixed false 1 pred))
    end).

(** Lines 227-251; [argv] is [sys.argv]. *)
Definition main (argv : list string) : M unit :=
  let csv_path :=
    match argv with
    | _ :: path :: _ => path
    | _ => "C:\Users\neags\Downloads\dev projects\wbl\ootp_data_20260122.csv"
    end in
  analyzer <- __init__ csv_path ;;
  '(analyzer, _) <- run_analysis analyzer ;;
  print_summary analyzer ;;;
  print_coefficient_table analyzer ;;;
  test_prediction analyzer 50 50 50 50 125 ;;;
  test_prediction analyzer 80 80 80 80 220 ;;;
  test_prediction analyzer 20 20 20 20 30 ;;;
  print (nl ++ rule) ;;;
  print "ANALYSIS COMPLETE" ;;;
  print rule.

End Analyzer.

(** ** Exact estimators

    [LinearRegression] and [Ridge] as scikit-learn documents them, in exact
    rational arithmetic: both centre [X] and [y], fit the coefficients on
    the centred data and set the intercept to
    [mean(y) - mean(X) . coef].  [LinearRegression] takes the least-squares
    solution of minimum norm (what [scipy.linalg.lstsq] returns), which is
    [G z] for any [z] with [G G z = Xc^T yc], [G = Xc^T Xc]; [Ridge] solves
    [(G + alpha I) w = Xc^T yc]. *)

Module Exact.

Definition scale (c : Q) (r : list Q) : list Q :=
  map (fun a => Qred (c * a)) r.

(** [s - c * r] *)
Fixpoint sub_scaled (c : Q) (r s : list Q) : list Q :=
  match r, s with
  | a :: r', b :: s' => Qred (b - c * a) :: sub_scaled c r' s'
  | _, _ => []
  end.

(** The first row with a non-zero entry in column [j], and the others. *)
Fixpoint pick (j : nat) (rs : list (list Q))
  : option (list Q * list (list Q)) :=
  match rs with
  | [] => None
  | r :: rs' =>
      if Qeq_bool (nth j r 0) 0
      then match pick j rs' with
           | Some (p, rest) => Some (p, r :: rest)
           | None => None
           end
      else Some (r, rs')
  end.

Definition eliminate (j : nat) (p r : list Q) : list Q :=
  sub_scaled (nth j r 0) p r.

(** Gauss-Jordan elimination on an augmented matrix: the reduced pivot
    rows, each with the column it pivots on. *)
Fixpoint gauss_jordan (cols : list nat) (pivots : list (nat * list Q))
  (pending : list (list Q)) : list (nat * list Q) :=
  match cols with
  | [] => pivots
  | j :: cols' =>
      match pick j pending with
      | None => gauss_jordan cols' pivots pending
      | Some (p, rest) =>
          let p' := scale (/ nth j p 0) p in
          gauss_jordan cols'
            ((j, p') :: map (fun kr => (fst kr, eliminate j p' (snd kr))) pivots)
            (map (eliminate j p') rest)
      end
  end.

(** A solution of [A z = b] in [n] unknowns (free unknowns are 0). *)
Definition solve (n : nat) (A : list (list Q)) (b : list Q) : list Q :=
  let aug := map (fun rb => (fst rb ++ [snd rb])%list) (combine A b) in
  let piv := gauss_jordan (seq 0 n) [] aug in
  map (fun j =>
         match find (fun kr => Nat.eqb (fst kr) j) piv with
         | Some kr => nth n (snd kr) 0
         | None => 0
         end) (seq 0 n).

Definition transpose (n : nat) (A : list (list Q)) : list (list Q) :=
  map (fun j => map (fun r => nth j r 0) A) (seq 0 n).

(** [Xc^T Xc] and [Xc^T yc]. *)
Definition gram (n : nat) (A : list (list Q)) : list (list Q) :=
  let cols := transpose n A in
  map (fun cj => map (fun ck => Qred (Vec.dot cj ck)) cols) cols.

Definition moment (n : nat) (A : list (list Q)) (y : list Q) : list Q :=
  map (fun cj => Qred (Vec.dot cj y)) (transpose n A).

(** The least-squares solution of minimum norm. *)
Definition lstsq (n : nat) (A : list (list Q)) (y : list Q) : list Q :=
  let G := gram n A in
  let z := solve n (gram n G) (moment n A y) in
  map Qred (Vec.matvec G z).

Definition add_diagonal (alpha : Q) (G : list (list Q)) : list (list Q) :=
  map (fun ir =>
         map (fun jg => if Nat.eqb (fst ir) (fst jg)
                        then Qred (snd jg + alpha) else snd jg)
             (combine (seq 0 (length (snd ir))) (snd ir)))
      (combine (seq 0 (length G)) G).

Definition centred_fit (coef_of : nat -> list (list Q) -> list Q -> list Q)
  (X : list (list pyfloat)) (y : list pyfloat) : result Model :=
  Xq <- Sklearn.check_array X ;;
  yq <- Sklearn.check_vector y ;;
  _ <- Sklearn.check_consistent_length Xq yq ;;
  let n := length (hd [] Xq) in
  let X_offset := map Vec.mean (transpose n Xq) in
  let y_offset := Vec.mean yq in
  let Xc := map (fun r => Vec.sub r X_offset) Xq in
  let yc := map (fun b => b - y_offset) yq in
  let coef := coef_of n Xc yc in
  Ok (mkModel coef (Qred (y_offset - Vec.dot X_offset coef))).

Definition LinearRegression_fit := centred_fit lstsq.

Definition Ridge_fit (alpha : Q) :=
  centred_fit (fun n Xc yc =>
                 solve n (add_diagonal alpha (gram n Xc)) (moment n Xc yc)).

Definition estimators : Estimators :=
  mkEstimators LinearRegression_fit Ridge_fit.

End Exact.

(** ** Reading a rendered formula *)





(** ** Observations of a run *)


(** Two runs print the same lines and end alike: with the same exception,
    or on the same table with the same summaries. *)
Definition same_run
  (r1 r2 : list string * result (FormulaAnalyzer * list Summary)) : Prop :=
  fst r1 = fst r2 /\
  match snd r1, snd r2 with
  | Ok (a1, x1), Ok (a2, x2) => df a1 = df a2 /\ x1 = x2
  | Raise e1, Raise e2 => e1 = e2
  | _, _ => False
  end.

(** ** Tables the loader produces *)



(** ** What [LinearRegression] computes *)



(** ** Example tables *)

Module Demo.

Local Open Scope string_scope.

(** Pearson's r where it is rational at sight: NaN for a series that is
    constant or holds NaN (as pandas gives), 0 for zero covariance, 1 or
    -1 for collinear series.  The examples below use no other case. *)
Definition corr (x y : list pyfloat) : pyfloat :=
  match Sklearn.finite_row x, Sklearn.finite_row y with
  | Some xq, Some yq =>
      let mx := Vec.mean xq in
      let my := Vec.mean yq in
      let dx := map (fun a => a - mx) xq in
      let dy := map (fun b => b - my) yq in
      let cov := Vec.dot dx dy in
      let vx := Vec.norm2 dx in
      let vy := Vec.norm2 dy in
      if Qeq_bool vx 0 || Qeq_bool vy 0 then NaN
      else if Qeq_bool cov 0 then Fin 0
      else if Qeq_bool (cov * cov) (vx * vy)
           then Fin (if Qgtb cov 0 then 1 else -1)
           else NaN
  | _, _ => NaN
  end.

Definition frame_of (cols : list string) (rs : list (list Q))
  : DataFrame cell :=
  mkFrame cols (map (map (fun q => Num (Fin q))) rs).

Definition all_columns : list string := (INPUT_COLS ++ OUTPUT_COLS)%list.

(** Three rows on exact lines in [stuff]; the other ratings and [ip] are
    constant.  [hr = 2*stuff + 3]. *)
Definition line_rows : list (list Q) :=
  [ [40; 50; 50; 50; 50; 220; 83; 60; 120; 200];
    [50; 50; 50; 50; 50; 200; 103; 50; 150; 200];
    [60; 50; 50; 50; 50; 180; 123; 40; 180; 200] ].

Definition line_csv : DataFrame cell := frame_of all_columns line_rows.

(** The same without the column [hr]. *)
Definition no_hr_csv : DataFrame cell :=
  frame_of (INPUT_COLS ++ ["hits allowed"; "bb"; "k"; "ip"])%list
    [ [40; 50; 50; 50; 50; 220; 60; 120; 200];
      [50; 50; 50; 50; 50; 200; 50; 150; 200];
      [60; 50; 50; 50; 50; 180; 40; 180; 200] ].


(** A header and no row. *)
Definition empty_csv : DataFrame cell := mkFrame all_columns [].

(** [hr] is a parabola in [stuff]: the degree-2 model fits better. *)
Definition parabola_csv : DataFrame cell :=
  frame_of (INPUT_COLS ++ ["hr"])%list
    [ [49; 50; 50; 50; 50; 1];
      [50; 50; 50; 50; 50; 0];
      [51; 50; 50; 50; 50; 1] ].

(** A text column, an empty row, a row with one empty cell, a text cell
    among numbers, and two good rows. *)
Definition messy_csv : DataFrame cell :=
  mkFrame ["stuff"; "hr"]
    [ [Num (Fin 40); Num (Fin 83)];
      [Num NaN; Num NaN];
      [Num (Fin 50); Num NaN];
      [Str "n/a"; Num (Fin 90)];
      [Num (Fin 60); Num (Fin 123)] ].

Definition named_csv : DataFrame cell :=
  mkFrame ["name"; "stuff"; "hr"]
    [ [Str "Smith"; Num (Fin 40); Num (Fin 83)];
      [Str "Jones"; Num (Fin 50); Num (Fin 103)] ].

(** A file system with one file per table; no text of these tables is a
    number. *)
Definition pandas_with (csv : DataFrame cell) : Pandas :=
  mkPandas (fun _ => Ok csv) (fun _ => None) corr.

Definition analyzer_of (csv : DataFrame cell) : FormulaAnalyzer :=
  mkAnalyzer (load (fun _ => None) csv) [] [].

End Demo.

(** * The other scripts

    The helpers of the draft and minor-league scripts that compute
    something: text is text of code points below 256, numbers are exact
    rationals. *)

(** ** Python built-ins they use *)

Module Py.

(** [c.isspace()]: the characters [str.strip()] removes. *)
Definition isspace (c : ascii) : bool :=
  let n := nat_of_ascii c in
  (Nat.leb 9 n && Nat.leb n 13) || (Nat.leb 28 n && Nat.leb n 32)
  || Nat.eqb n 133 || Nat.eqb n 160.

Fixpoint lstrip (s : string) : string :=
  match s with
  | EmptyString => EmptyString
  | String c s' => if isspace c then lstrip s' else s
  end.

Definition reverse (s : string) : string :=
  string_of_list_ascii (rev (list_ascii_of_string s)).

Definition rstrip (s : string) : string := reverse (lstrip (reverse s)).

(** [s.strip()] *)
Definition strip (s : string) : string := rstrip (lstrip s).

(** [c.isdigit()]: the ten digits and the superscripts two, three, one. *)
Definition isdigit (c : ascii) : bool :=
  let n := nat_of_ascii c in
  (Nat.leb 48 n && Nat.leb n 57)
  || Nat.eqb n 178 || Nat.eqb n 179 || Nat.eqb n 185.

(** [''.join(c for c in s if p(c))] *)
Fixpoint keep (p : ascii -> bool) (s : string) : string :=
  match s with
  | EmptyString => EmptyString
  | String c s' => if p c then String c (keep p s') else keep p s'
  end.

(** [int(s)] for [s] without sign, blank or underscore: the decimal value,
    [ValueError] when a character is not one of the ten digits, and also
    for more than 4300 characters (CPython's default limit on the
    conversion of text to integers). *)
Definition int (s : string) : result Z :=
  if Nat.ltb 4300 (String.length s)
  then Raise (ValueError "Exceeds the limit (4300 digits) for integer string conversion")
  else
    match DecimalString.NilZero.uint_of_string s with
    | Some d => Ok (Z.of_N (N.of_uint d))
    | None => Raise (ValueError "invalid literal for int() with base 10")
    end.

(** [sorted(l)]: stable, ascending. *)
Fixpoint insert (x : Q) (l : list Q) : list Q :=
  match l with
  | [] => [x]
  | y :: l' => if Qle_bool x y then x :: l else y :: insert x l'
  end.

Definition sorted (l : list Q) : list Q := fold_right insert [] l.

(** [sum(1 for v in l if p(v))] *)
Definition count_if {A} (p : A -> bool) (l : list A) : nat :=
  length (filter p l).

End Py.

(** ** [src/data/draft_data/analyze_2010.py] *)

Module Draft2010.

Local Open Scope string_scope.

(** Lines 33-43; [val] is [None] or text.  Of [v.upper()] only the
    comparison with six ASCII words is used, and no character above 127
    has an upper case made of the letters of these words, so the ASCII
    upper case decides the same. *)
Definition normalize_trait (val : option string) : option string :=
  match val with
  | None => None
  | Some val =>
      if String.eqb val "" || String.eqb (Py.strip val) ""
         || String.eqb (Py.strip val) "U"
      then None
      else
        let v := Fmt.upper (Py.strip val) in
        if String.eqb v "H" || String.eqb v "HIGH" then Some "H"
        else if String.eqb v "N" || String.eqb v "NORMAL" then Some "N"
        else if String.eqb v "L" || String.eqb v "LOW" then Some "L"
        else None
  end.

(** Lines 57-63, for a whole number of percent. *)
Definition percentile (values : list Q) (pct : nat) : Q :=
  match values with
  | [] => 0
  | _ =>
      let s := Py.sorted values in
      let idx := (length s * pct / 100)%nat in
      nth (Nat.min idx (length s - 1)) s 0
  end.

(** [100*k/len(vals)] *)
Definition share (k n : nat) : Q :=
  inject_Z (100 * Z.of_nat k) / inject_Z (Z.of_nat n).

(** Lines 65-79. *)
Definition stats_line (vals : list Q) (label : string) : string :=
  match vals with
  | [] => "  " ++ label ++ ": No players"
  | _ =>
      let n := length vals in
      let avg := Vec.sum vals / inject_Z (Z.of_nat n) in
      let med := nth (n / 2) (Py.sorted vals) 0 in
      let pos := Py.count_if (fun v => Qgtb v 0) vals in
      let top3 := Py.count_if (fun v => Qle_bool 3 v) vals in
      let top10 := Py.count_if (fun v => Qle_bool 10 v) vals in
      let bust := Py.count_if (fun v => Qgtb 0 v) vals in
      "  " ++ label ++ ": n=" ++ Fmt.rjust 4 (str_nat n)
        ++ ", avg=" ++ Fmt.rjust 6 (Fmt.fixed false 1 (Fin avg))
        ++ ", med=" ++ Fmt.rjust 5 (Fmt.fixed false 1 (Fin med)) ++ ", "
        ++ "bust(<0)=" ++ Fmt.rjust 4 (Fmt.fixed false 0 (Fin (share bust n))) ++ "%, "
        ++ "WAR>0=" ++ Fmt.rjust 4 (Fmt.fixed false 0 (Fin (share pos n))) ++ "%, "
        ++ "WAR>=3=" ++ Fmt.rjust 4 (Fmt.fixed false 0 (Fin (share top3 n))) ++ "%, "
        ++ "WAR>=10=" ++ Fmt.rjust 4 (Fmt.fixed false 0 (Fin (share top10 n))) ++ "%"
  end.

End Draft2010.

(** ** [src/data/draft_data/analyze_merged.py] *)

Module Merged.

Local Open Scope string_scope.

(** Lines 87-93. *)
Definition parse_round (s : string) : result Z :=
  if String.eqb s "" then Ok 0%Z
  else
    let cleaned := Py.keep Py.isdigit s in
    if String.eqb cleaned "" then Ok 0%Z else Py.int cleaned.

(** Lines 102-119: the fields of [Player] that the filters read. *)
Record Player : Type := mkPlayer {
  pid : Z;
  pos : string;
  name : string;
  draft_year : Z;
  draft_round : Z;
  draft_pick : Z
}.

(** A dictionary keyed by player id, in insertion order. *)
Fixpoint lookup {V} (d : list (Z * V)) (k : Z) : option V :=
  match d with
  | [] => None
  | (k', v) :: d' => if Z.eqb k k' then Some v else lookup d' k
  end.

Definition contains {V} (d : list (Z * V)) (k : Z) : bool :=
  match lookup d k with Some _ => true | None => false end.

(** [d[k] = v] *)
Fixpoint store {V} (d : list (Z * V)) (k : Z) (v : V) : list (Z * V) :=
  match d with
  | [] => [(k, v)]
  | (k', v') :: d' =>
      if Z.eqb k k' then (k', v) :: d' else (k', v') :: store d' k v
  end.

(** Lines 190-195: the union of two snapshots, the first one winning. *)
Definition merge {V} (snap_2010 snap_2017 : list (Z * V)) : list (Z * V) :=
  let merged := fold_left (fun m kv => store m (fst kv) (snd kv)) snap_2010 [] in
  fold_left (fun m kv => if negb (contains m (fst kv))
                         then store m (fst kv) (snd kv) else m)
            snap_2017 merged.

(** [len(set(a.keys()) - set(b.keys()))] for dictionaries [a], [b]. *)
Definition only_in {V} (a b : list (Z * V)) : nat :=
  length (filter (fun kv => negb (contains b (fst kv))) a).

(** [len(set(a.keys()) & set(b.keys()))] *)
Definition in_both {V} (a b : list (Z * V)) : nat :=
  length (filter (fun kv => contains b (fst kv)) a).

(** Lines 204-208; [players.values()] is the list of the entries. *)
Definition get_drafted (players : list (Z * Player)) (min_year max_year : Z)
  : list Player :=
  filter (fun p => Z.leb min_year (draft_year p)
                   && Z.leb (draft_year p) max_year
                   && Z.ltb 0 (draft_round p))
         (map snd players).

End Merged.

(** ** [src/data/draft_data/triple_h_deep_dive.py] *)

Module TripleH.

Local Open Scope string_scope.

(** The three traits of a player record the buckets read, each [None] or
    one of ['H'], ['N'], ['L'] (the result of [norm]). *)
Record Traits : Type := mkTraits {
  we : option string;
  int : option string;
  ad : option string
}.

Definition equals (t : option string) (v : string) : bool :=
  match t with
  | Some s => String.eqb s v
  | None => false
  end.

(** Lines 144-150. *)
Definition is_triple_h (p : Traits) : bool :=
  equals (we p) "H" && equals (int p) "H" && equals (ad p) "H".
Definition is_double_h (p : Traits) : bool :=
  Nat.leb 2 (Nat.b2n (equals (we p) "H") + Nat.b2n (equals (int p) "H")
             + Nat.b2n (equals (ad p) "H")).
Definition is_any_h (p : Traits) : bool :=
  equals (we p) "H" || equals (int p) "H" || equals (ad p) "H".
Definition is_all_normal (p : Traits) : bool :=
  equals (we p) "N" && equals (int p) "N" && equals (ad p) "N".
Definition is_any_low (p : Traits) : bool :=
  equals (we p) "L" || equals (int p) "L" || equals (ad p) "L".
Definition is_h_we (p : Traits) : bool := equals (we p) "H".
Definition is_l_we (p : Traits) : bool := equals (we p) "L".

End TripleH.

(** ** [src/tools/analyze_minor_league.py] and [analyze_minor_league_v2.py] *)

Module MinorLeague.

(** [analyze_minor_league.py], lines 172-179. *)
Definition expected_k9 (stuff : Q) : Q := (207 # 100) + (74 # 1000) * stuff.
Definition expected_bb9 (control : Q) : Q := (522 # 100) - (52 # 1000) * control.
Definition expected_hr9 (hra : Q) : Q := (208 # 100) - (24 # 1000) * hra.

(** A row of the scouting table, as far as [expected_fip] reads it. *)
Record Scouting : Type := mkScouting {
  stuff : Q;
  control : Q;
  hra : Q
}.

(** [analyze_minor_league_v2.py], lines 65-70 and 90-95. *)
Definition expected_fip (row : Scouting) : Q :=
  let k9 := (207 # 100) + (74 # 1000) * stuff row in
  let bb9 := (522 # 100) - (52 # 1000) * control row in
  let hr9 := (208 # 100) - (24 # 1000) * hra row in
  let fip := (13 * hr9 + 3 * bb9 - 2 * k9) / 9 + (347 # 100) in
  fip.

End MinorLeague.
(** * Scale converter *)

Section ScaleConverter.

Import Babip.








End ScaleConverter.

(** * Table loader *)

Section LoaderFacts.

Variable parse : string -> option Q.

Lemma notna_to_numeric (r : list cell) :
  forallb notna (map (to_numeric parse) r) = negb (malformed parse r).
Proof.
  unfold malformed, bad_cell, notna.
  induction r as [|c r IH]; simpl; [reflexivity|].
  rewrite IH. now destruct (isnan (to_numeric parse c)).
Qed.



Lemma filter_split {A} (p : A -> bool) (l : list A) :
  (length (filter (fun a => negb (p a)) l) + length (filter p l))%nat = length l.
Proof.
  induction l as [|a l IH]; simpl; [reflexivity|].
  destruct (p a); simpl; lia.
Qed.




(** A column all of whose cells are empty or not numbers empties the
    table. *)
Lemma bad_column_drops_all (j : nat) (rs : list (list cell)) :
  Forall (fun r => exists c, nth_error r j = Some c /\ bad_cell parse c = true) rs ->
  filter (forallb notna)
    (map (map (to_numeric parse))
       (filter (fun r => negb (forallb cell_isna r)) rs)) = [].
Proof.
  induction 1 as [|r rs (c & Hc & Hbad) _ IH]; simpl; [reflexivity|].
  destruct (forallb cell_isna r); simpl; [exact IH|].
  rewrite notna_to_numeric.
  assert (Hm : malformed parse r = true).
  { apply existsb_exists. exists c. split; [|exact Hbad].
    eapply nth_error_In, Hc. }
  rewrite Hm. simpl. exact IH.
Qed.

End LoaderFacts.

(** * Programs that print *)

Section Printing.

Lemma for_each_total {A} (body : A -> M unit) (l : list A) :
  (forall a out, In a l -> exists out', body a out = (out', Ok tt)) ->
  forall out, exists out', for_each l body out = (out', Ok tt).
Proof.
  unfold for_each. induction l as [|a l IH]; intros Hb out; simpl.
  - now exists out.
  - unfold mbind. destruct (Hb a out (or_introl eq_refl)) as [out1 E].
    rewrite E. apply IH. intros; apply Hb; now right.
Qed.

Lemma getitem_has_column (d : DataFrame pyfloat) (col : string) :
  has_column d col = true -> exists c, getitem d col = Ok c.
Proof.
  unfold has_column, getitem. destruct (index_of col (columns d)); [|discriminate].
  eauto.
Qed.

(** The constructor completes for every table [read_csv] delivers. *)
Lemma init_total (pd : Pandas) (path : string) (raw : DataFrame cell)
  (out : list string) :
  read_csv pd path = Ok raw ->
  exists out',
    __init__ pd path out
    = (out', Ok (mkAnalyzer (load (parse_number pd) raw) [] [])).
Proof.
  intros Hread. unfold __init__, mbind at 1, lift. rewrite Hread.
  unfold mbind, print.
  match goal with
  | |- context [for_each ?l ?b ?o] =>
      assert (Hloop : exists o', for_each l b o = (o', Ok tt))
  end.
  { apply for_each_total. intros col o _. simpl df.
    destruct (has_column _ col) eqn:Hc; [|now exists o].
    destruct (getitem_has_column _ _ Hc) as [c Ec].
    unfold mbind, lift, print. rewrite Ec. eauto. }
  destruct Hloop as [o' E]. rewrite E. eexists. reflexivity.
Qed.

End Printing.


(** C9: coercion is applied to every column of the file; when some column
    holds, in every row, a cell that is empty or not a number, no row
    survives. *)
Theorem loader_text_column_empties_table :
  forall (pd : Pandas) (path : string) (raw : DataFrame cell)
         (out : list string) (j : nat),
    read_csv pd path = Ok raw ->
    (j < length (columns raw))%nat ->
    Forall (fun r => exists c, nth_error r j = Some c /\
                               bad_cell (parse_number pd) c = true) (rows raw) ->
    exists out' self,
      __init__ pd path out = (out', Ok self) /\
      columns (df self) = columns raw /\
      rows (df self) = [].
Proof.
  intros pd path raw out j Hread _ Hbad.
  destruct (init_total pd path raw out Hread) as [out' E].
  exists out', (mkAnalyzer (load (parse_number pd) raw) [] []).
  repeat split; [exact E|].
  simpl. apply bad_column_drops_all with (j := j). exact Hbad.
Qed.

(** * Formula rendering *)

Section Formula.

Local Open Scope string_scope.






Lemma skipn_nth_error {A} (l : list A) (i : nat) (a : A) :
  nth_error l i = Some a -> skipn i l = a :: skipn (S i) l.
Proof.
  revert i. induction l as [|b l IH]; intros [|i]; simpl; try discriminate.
  - now intros [= ->].
  - intros H. now apply IH.
Qed.

(** The terms kept: one per coefficient above the threshold, in order. *)
Lemma formula_terms_spec (cols : list string) (coeffs : list Q) (i : nat) :
  (i + length cols <= length coeffs)%nat ->
  formula_terms coeffs i cols
  = Ok (flat_map (fun cc => if Qgtb (Qabs (fst cc)) threshold
                            then [term (fst cc) (snd cc)] else [])
          (combine (skipn i coeffs) cols)).
Proof.
  revert i. induction cols as [|col cols IH]; intros i Hlen; simpl.
  - now rewrite combine_nil.
  - simpl in Hlen.
    destruct (nth_error coeffs i) as [c|] eqn:Hc.
    2:{ apply nth_error_None in Hc. lia. }
    rewrite (skipn_nth_error _ _ _ Hc). simpl.
    rewrite IH by lia. simpl.
    now destruct (Qgtb (Qabs c) threshold).
Qed.



End Formula.



(** * The analysis loop *)

Section Loop.

Variable sk : Estimators.
Variable pd : Pandas.

Local Open Scope string_scope.

Lemma mbind_ok {A B} (m : M A) (k : A -> M B) out out' b :
  mbind m k out = (out', Ok b) ->
  exists out1 a, m out = (out1, Ok a) /\ k a out1 = (out', Ok b).
Proof.
  unfold mbind. destruct (m out) as [out1 [a|e]]; [eauto | discriminate].
Qed.

Lemma for_each_extends {A} (body : A -> M unit) (l : list A) :
  (forall a out out' r, body a out = (out', r) -> exists d, out' = (out ++ d)%list) ->
  forall out out' r, for_each l body out = (out', r) ->
                     exists d, out' = (out ++ d)%list.
Proof.
  intros Hb. unfold for_each. generalize tt.
  induction l as [|a l IH]; intros u out out' r; simpl.
  - unfold ret. intros [= <- <-]. exists []. now rewrite app_nil_r.
  - unfold mbind. destruct (body a out) as [out1 [[]|e]] eqn:E.
    + intros H. destruct (Hb _ _ _ _ E) as [d1 ->].
      destruct (IH _ _ _ _ H) as [d2 ->]. exists (d1 ++ d2)%list.
      now rewrite app_assoc.
    + intros [= <- <-]. eapply Hb, E.
Qed.

Lemma single_variable_effects_extends self col out out' r :
  analyze_single_variable_effects sk pd self col out = (out', r) ->
  exists d, out' = (out ++ d)%list.
Proof.
  unfold analyze_single_variable_effects, mbind at 1, print.
  intros H. apply for_each_extends in H.
  - destruct H as [d ->]. rewrite <- app_assoc. eauto.
  - clear. intros a out out' r. unfold mbind, lift, print.
    repeat match goal with
           | |- context [match ?x with _ => _ end] => destruct x
           end;
      intros [= <- <-]; solve [ now exists []; rewrite app_nil_r | eauto ].
Qed.

Lemma in_snoc {A} (l : list A) (a b : A) : In a l -> In a (l ++ [b])%list.
Proof. intros H. apply in_or_app. now left. Qed.

Lemma in_last {A} (l : list A) (a : A) : In a (l ++ [a])%list.
Proof. apply in_or_app. right. now left. Qed.

(** One pass of the loop of [run_analysis] that completes: the column is
    skipped, or both models were fitted and the linear one was stored. *)
Lemma analyze_column_ok self res col out out' st' :
  analyze_column sk pd (self, res) col out = (out', Ok st') ->
  (has_column (df self) col = false /\ st' = (self, res) /\
   out' = (out ++ [(nl ++ "Skipping " ++ col ++ " - not in data")%string])%list) \/
  (has_column (df self) col = true /\
   exists lin r2 mae pm pt pr2 pmae f,
     analyze_linear sk self col = Ok (lin, r2, mae) /\
     analyze_polynomial sk self col 2 = Ok (pm, pt, pr2, pmae) /\
     format_formula lin col = Ok f /\
     st' = (mkAnalyzer (df self) (dict_set (formulas self) col f)
              (dict_set (models self) col lin),
            (res ++ [mkSummary col r2 mae f])%list) /\
     In ("    R² = " ++ Fmt.fixed false 4 pr2 ++ " (explains "
           ++ Fmt.fixed false 1 (fmul pr2 (Fin 100)) ++ "% of variance)") out' /\
     In ("    MAE = " ++ Fmt.fixed false 2 pmae) out' /\
     exists d, out' = (out ++ d)%list).
Proof.
  unfold analyze_column.
  destruct (has_column (df self) col) eqn:Hcol; cbn [negb].
  2:{ unfold mbind, print, ret. intros [= <- <-]. left. auto. }
  intros H. right. split; [reflexivity|].
  unfold mbind at 1 2 3 4, print, lift in H.
  destruct (analyze_linear sk self col) as [[[lin r2] mae]|e] eqn:Elin;
    [|discriminate].
  unfold mbind at 1, lift in H.
  destruct (analyze_polynomial sk self col 2) as [[[[pm pt] pr2] pmae]|e]
    eqn:Epoly; [|discriminate].
  unfold mbind at 1, lift in H.
  destruct (format_formula lin col) as [f|e] eqn:Ef; [|discriminate].
  exists lin, r2, mae, pm, pt, pr2, pmae, f.
  do 3 (split; [reflexivity || assumption|]).
  unfold mbind, print, ret in H.
  destruct (fgt (fsub pr2 r2) (Fin (2 # 100)));
    match type of H with
    | context [analyze_single_variable_effects sk pd ?s col ?o] =>
        destruct (analyze_single_variable_effects sk pd s col o)
          as [o' [[]|e]] eqn:E; [|discriminate]
    end;
    inversion H; subst; clear H;
    (split; [reflexivity|]);
    apply single_variable_effects_extends in E as [d ->];
    (split; [|split]);
    try (apply in_or_app; left; repeat (first [apply in_last | apply in_snoc]));
    rewrite <- !app_assoc; eauto.
Qed.

Lemma dict_get_set {V} (d : list (string * V)) (k k' : string) (v : V) :
  dict_get (dict_set d k v) k'
  = if String.eqb k' k then Some v else dict_get d k'.
Proof.
  induction d as [|[k0 v0] d IH]; simpl.
  - reflexivity.
  - destruct (String.eqb k k0) eqn:E; simpl.
    + apply String.eqb_eq in E. subst k0. now destruct (String.eqb k' k).
    + rewrite IH. destruct (String.eqb k' k0) eqn:E0; [|reflexivity].
      apply String.eqb_eq in E0. subst k0.
      rewrite String.eqb_sym in E. now rewrite E.
Qed.

Lemma analyze_linear_df (s1 s2 : FormulaAnalyzer) (col : string) :
  df s1 = df s2 -> analyze_linear sk s1 col = analyze_linear sk s2 col.
Proof. unfold analyze_linear. now intros ->. Qed.

Lemma analyze_polynomial_df (s1 s2 : FormulaAnalyzer) (col : string) (d : nat) :
  df s1 = df s2 -> analyze_polynomial sk s1 col d = analyze_polynomial sk s2 col d.
Proof. unfold analyze_polynomial. now intros ->. Qed.

(** What a completed loop over the columns [l] leaves behind. *)
Lemma foldM_columns (l : list string) :
  NoDup l ->
  forall st out out' st',
    foldM (analyze_column sk pd) l st out = (out', Ok st') ->
    df (fst st') = df (fst st) /\
    (exists d, out' = (out ++ d)%list) /\
    (exists r, snd st' = (snd st ++ r)%list) /\
    (forall col, ~ In col l ->
       dict_get (models (fst st')) col = dict_get (models (fst st)) col /\
       dict_get (formulas (fst st')) col = dict_get (formulas (fst st)) col) /\
    (forall col, In col l -> has_column (df (fst st)) col = false ->
       dict_get (models (fst st')) col = dict_get (models (fst st)) col /\
       dict_get (formulas (fst st')) col = dict_get (formulas (fst st)) col) /\
    (forall col, In col l -> has_column (df (fst st)) col = true ->
       exists lin r2 mae pm pt pr2 pmae f,
         analyze_linear sk (fst st) col = Ok (lin, r2, mae) /\
         analyze_polynomial sk (fst st) col 2 = Ok (pm, pt, pr2, pmae) /\
         format_formula lin col = Ok f /\
         dict_get (models (fst st')) col = Some lin /\
         dict_get (formulas (fst st')) col = Some f /\
         In (mkSummary col r2 mae f) (snd st') /\
         In ("    R² = " ++ Fmt.fixed false 4 pr2 ++ " (explains "
               ++ Fmt.fixed false 1 (fmul pr2 (Fin 100)) ++ "% of variance)") out' /\
         In ("    MAE = " ++ Fmt.fixed false 2 pmae) out').
Proof.
  induction 1 as [|a l Hnotin Hnd IH]; intros [self res] out out' st';
    cbn [foldM fst snd].
  - unfold ret. intros [= <- <-]. simpl.
    split; [reflexivity|]. split; [exists []; now rewrite app_nil_r|].
    split; [exists []; now rewrite app_nil_r|].
    repeat split; intros; tauto.
  - intros H. apply mbind_ok in H as (out1 & st1 & Hcol & Hrest).
    specialize (IH _ _ _ _ Hrest).
    destruct IH as (Hdf & [d2 Hd2] & [r2' Hr2] & Hother & Habsent & Hpresent).
    apply analyze_column_ok in Hcol
      as [(Hno & -> & ->) |
          (Hyes & lin & r2 & mae & pm & pt & pr2 & pmae & f &
           Elin & Epoly & Ef & -> & Hl1 & Hl2 & d1 & ->)];
      simpl in *.
    + split; [assumption|].
      split; [rewrite Hd2, <- app_assoc; eauto|].
      split; [eauto|].
      split; [intros col Hc; apply Hother; tauto|].
      split.
      * intros col [<-|Hc] Hhas; [apply Hother; assumption | now apply Habsent].
      * intros col [<-|Hc] Hhas; [congruence|]. now apply Hpresent.
    + split; [assumption|].
      split; [rewrite Hd2, <- app_assoc; eauto|].
      split; [rewrite Hr2, <- app_assoc; eauto|].
      assert (Hne : forall col, col <> a -> String.eqb col a = false)
        by (intros col Hc; now apply String.eqb_neq).
      split; [|split].
      * intros col Hc.
        destruct (Hother col (fun H => Hc (or_intror H))) as [Hm Hf].
        rewrite Hm, Hf, !dict_get_set, Hne; [auto|]. intros ->. apply Hc. now left.
      * intros col [<-|Hc] Hhas; [congruence|].
        destruct (Habsent col Hc Hhas) as [Hm Hf].
        rewrite Hm, Hf, !dict_get_set, Hne; [auto|]. intros ->. contradiction.
      * intros col [<-|Hc] Hhas.
        -- exists lin, r2, mae, pm, pt, pr2, pmae, f.
           destruct (Hother a Hnotin) as [Hm Hf].
           rewrite Hm, Hf, !dict_get_set, String.eqb_refl.
           repeat (split; [assumption || reflexivity|]).
           split; [rewrite Hr2; apply in_or_app; left; apply in_last|].
           rewrite Hd2. split; apply in_or_app; left; assumption.
        -- destruct (Hpresent col Hc Hhas)
             as (lin' & r2'' & mae' & pm' & pt' & pr2'' & pmae' & f' &
                 E1 & E2 & E3 & E4 & E5 & E6 & E7 & E8).
           exists lin', r2'', mae', pm', pt', pr2'', pmae', f'.
           rewrite <- E1, <- E2. repeat split; try assumption.
Qed.

End Loop.



Section LoopRuns.

Variable sk : Estimators.
Variable pd : Pandas.

Local Open Scope string_scope.

Lemma run_analysis_ok self out out' st' :
  run_analysis sk pd self out = (out', Ok st') ->
  exists out0, (exists d, out0 = (out ++ d)%list) /\
    foldM (analyze_column sk pd) OUTPUT_COLS (self, []) out0 = (out', Ok st').
Proof.
  unfold run_analysis, mbind at 1 2 3, print. intros H.
  eexists. split; [|exact H]. rewrite <- !app_assoc. eauto.
Qed.

Lemma output_cols_nodup : NoDup OUTPUT_COLS.
Proof.
  unfold OUTPUT_COLS.
  repeat (constructor; [simpl; intros H; repeat (destruct H as [H|H]; [discriminate|]); exact H|]).
  constructor.
Qed.

Lemma single_variable_effects_df s1 s2 col :
  df s1 = df s2 ->
  analyze_single_variable_effects sk pd s1 col
  = analyze_single_variable_effects sk pd s2 col.
Proof. unfold analyze_single_variable_effects. now intros ->. Qed.

Lemma same_run_refl r : same_run r r.
Proof.
  destruct r as [o [[a x]|e]]; unfold same_run; simpl; auto.
Qed.

Lemma same_bind {A} (m : M A) (k1 k2 : A -> M (FormulaAnalyzer * list Summary))
  (out : list string) :
  (forall a o, same_run (k1 a o) (k2 a o)) ->
  same_run (mbind m k1 out) (mbind m k2 out).
Proof.
  intros Hk. unfold mbind. destruct (m out) as [o [a|e]]; [apply Hk|].
  split; reflexivity.
Qed.

Lemma analyze_column_same s1 s2 res col out :
  df s1 = df s2 ->
  same_run (analyze_column sk pd (s1, res) col out)
           (analyze_column sk pd (s2, res) col out).
Proof.
  intros Hdf. unfold analyze_column.
  rewrite (analyze_linear_df sk s1 s2 col Hdf),
          (analyze_polynomial_df sk s1 s2 col 2 Hdf), <- Hdf.
  destruct (has_column (df s1) col); cbn [negb].
  - do 3 (apply same_bind; intros _ ?).
    apply same_bind. intros [[lin r2] mae] ?.
    apply same_bind. intros [[[pm pt] pr2] pmae] ?.
    apply same_bind. intros f ?.
    do 9 (apply same_bind; intros _ ?).
    rewrite (single_variable_effects_df
               {| df := df s1; formulas := dict_set (formulas s1) col f;
                  models := dict_set (models s1) col lin |}
               {| df := df s1; formulas := dict_set (formulas s2) col f;
                  models := dict_set (models s2) col lin |} col eq_refl).
    apply same_bind. intros _ ?.
    unfold ret. split; simpl; auto.
  - apply same_bind. intros _ ?. unfold ret. split; simpl; auto.
Qed.

Lemma foldM_same (l : list string) :
  forall s1 s2 res out,
    df s1 = df s2 ->
    same_run (foldM (analyze_column sk pd) l (s1, res) out)
             (foldM (analyze_column sk pd) l (s2, res) out).
Proof.
  induction l as [|a l IH]; intros s1 s2 res out Hdf; cbn [foldM].
  - unfold ret, same_run. simpl. auto.
  - pose proof (analyze_column_same s1 s2 res a out Hdf) as [Ho Hr].
    unfold mbind.
    destruct (analyze_column sk pd (s1, res) a out) as [o1 [[a1 x1]|e1]];
      destruct (analyze_column sk pd (s2, res) a out) as [o2 [[a2 x2]|e2]];
      simpl in Ho, Hr; try contradiction; subst.
    + destruct Hr as [Hdf' ->]. now apply IH.
    + split; reflexivity.
Qed.

Lemma index_of_lt (k : string) (l : list string) (i : nat) :
  index_of k l = Some i -> (i < length l)%nat.
Proof.
  revert i. induction l as [|c l IH]; intros i; simpl; [discriminate|].
  destruct (String.eqb k c).
  - intros [= <-]. lia.
  - destruct (index_of k l) as [j|]; [|discriminate].
    simpl. intros [= <-]. specialize (IH j eq_refl). lia.
Qed.

Lemma indices_of_missing (cols l : list string) :
  (exists c, In c cols /\ index_of c l = None) ->
  exists k, In k cols /\ index_of k l = None /\
            indices_of cols l = Raise (KeyError k).
Proof.
  induction cols as [|c cols IH]; intros (c0 & Hin & Hnone); [contradiction|].
  simpl. destruct (index_of c l) as [i|] eqn:Ec.
  - destruct Hin as [->|Hin]; [congruence|].
    destruct IH as (k & Hk & Hk' & E); [eauto|].
    exists k. rewrite E. simpl. auto.
  - exists c. auto.
Qed.

Lemma analyze_column_absent self res col out :
  has_column (df self) col = false ->
  analyze_column sk pd (self, res) col out
  = ((out ++ [(nl ++ "Skipping " ++ col ++ " - not in data")%string])%list,
     Ok (self, res)).
Proof. unfold analyze_column. now intros ->. Qed.

Lemma analyze_column_linear_raise self res col out e :
  has_column (df self) col = true ->
  analyze_linear sk self col = Raise e ->
  exists out', analyze_column sk pd (self, res) col out = (out', Raise e).
Proof.
  unfold analyze_column. intros -> E. cbn [negb].
  unfold mbind, print, lift. rewrite E. eauto.
Qed.

(** When the linear fit raises the same exception for every column, the
    loop ends with it at the first column the table has. *)
Lemma foldM_first_raise (l : list string) self e :
  (forall col, analyze_linear sk self col = Raise e) ->
  (exists col, In col l /\ has_column (df self) col = true) ->
  forall res out, exists out',
    foldM (analyze_column sk pd) l (self, res) out = (out', Raise e).
Proof.
  intros Hraise. induction l as [|a l IH]; intros (col & Hin & Hhas) res out.
  - contradiction.
  - cbn [foldM]. unfold mbind.
    destruct (has_column (df self) a) eqn:Ha.
    + destruct (analyze_column_linear_raise self res a out e Ha (Hraise a))
        as [out' ->]. eauto.
    + rewrite (analyze_column_absent self res a out Ha).
      apply IH. exists col. destruct Hin as [<-|Hin]; [congruence | auto].
Qed.

End LoopRuns.

Lemma analyze_linear_same_fit (sk1 sk2 : Estimators) self col :
  LinearRegression_fit sk1 = LinearRegression_fit sk2 ->
  analyze_linear sk1 self col = analyze_linear sk2 self col.
Proof. unfold analyze_linear. now intros ->. Qed.

(** The state a completed loop leaves does not depend on the polynomial
    estimator nor on what was printed. *)
Lemma foldM_columns_agree (sk1 sk2 : Estimators) (pd1 pd2 : Pandas)
  (l : list string) :
  LinearRegression_fit sk1 = LinearRegression_fit sk2 ->
  forall st out1 out1' st1 out2 out2' st2,
    foldM (analyze_column sk1 pd1) l st out1 = (out1', Ok st1) ->
    foldM (analyze_column sk2 pd2) l st out2 = (out2', Ok st2) ->
    st1 = st2.
Proof.
  intros Hfit. induction l as [|a l IH];
    intros [self res] out1 out1' st1 out2 out2' st2; cbn [foldM].
  - unfold ret. now intros [= _ <-] [= _ <-].
  - intros H1 H2.
    apply mbind_ok in H1 as (o1 & m1 & Hc1 & Hr1).
    apply mbind_ok in H2 as (o2 & m2 & Hc2 & Hr2).
    assert (m1 = m2).
    { apply analyze_column_ok in Hc1
        as [(Hno1 & -> & _) |
            (Hy1 & lin1 & r21 & mae1 & ? & ? & ? & ? & f1 &
             El1 & _ & Ef1 & -> & _)];
      apply analyze_column_ok in Hc2
        as [(Hno2 & -> & _) |
            (Hy2 & lin2 & r22 & mae2 & ? & ? & ? & ? & f2 &
             El2 & _ & Ef2 & -> & _)];
      try congruence.
      rewrite (analyze_linear_same_fit sk1 sk2 _ _ Hfit) in El1.
      rewrite El1 in El2. injection El2 as <- <- <-.
      rewrite Ef1 in Ef2. now injection Ef2 as <-. }
    subst m2. exact (IH _ _ _ _ _ _ _ Hr1 Hr2).
Qed.

(** * Claims about the analysis run *)

Lemma run_analysis_unfold (sk : Estimators) (pd : Pandas) self out :
  run_analysis sk pd self out
  = foldM (analyze_column sk pd) OUTPUT_COLS (self, [])
      (((out ++ [rule]) ++ ["OOTP RATING -> STAT FORMULA ANALYSIS"%string])
         ++ [rule]).
Proof. reflexivity. Qed.


(** C10: after a completed run, every entry of [models] that the run
    wrote is the model [analyze_linear] returns for that column.  For each
    output column of the table the degree-2 model was fitted and its R2 and
    MAE lines were printed, and whatever these values are, the model
    stored, the formula stored and the summary returned are those of the
    linear fit.  A run with another [Ridge] estimator (and other printed
    text) that completes leaves the same analyzer and summaries, so what
    [print_summary], [print_coefficient_table] and [test_prediction] read
    is the same. *)
Theorem stored_model_is_linear :
  forall (sk : Estimators) (pd : Pandas) (self self' : FormulaAnalyzer)
         (results : list Summary) (out out' : list string),
    run_analysis sk pd self out = (out', Ok (self', results)) ->
    df self' = df self /\
    (forall col m,
        dict_get (models self') col = Some m ->
        dict_get (models self) col = Some m \/
        exists r2 mae, analyze_linear sk self col = Ok (m, r2, mae)) /\
    (forall col,
        In col OUTPUT_COLS -> has_column (df self) col = true ->
        exists lin r2 mae pm pt pr2 pmae f,
          analyze_linear sk self col = Ok (lin, r2, mae) /\
          analyze_polynomial sk self col 2 = Ok (pm, pt, pr2, pmae) /\
          format_formula lin col = Ok f /\
          dict_get (models self') col = Some lin /\
          dict_get (formulas self') col = Some f /\
          In (mkSummary col r2 mae f) results /\
          In ("    R² = " ++ Fmt.fixed false 4 pr2 ++ " (explains "
                ++ Fmt.fixed false 1 (fmul pr2 (Fin 100))
                ++ "% of variance)")%string out' /\
          In ("    MAE = " ++ Fmt.fixed false 2 pmae)%string out') /\
    (forall (sk2 : Estimators) (pd2 : Pandas) self2 results2 out2 out2',
        LinearRegression_fit sk2 = LinearRegression_fit sk ->
        run_analysis sk2 pd2 self out2 = (out2', Ok (self2, results2)) ->
        self2 = self' /\ results2 = results).
Proof.
  intros sk pd self self' results out out' Hrun.
  destruct (run_analysis_ok sk pd _ _ _ _ Hrun) as (out0 & _ & Hfold).
  destruct (foldM_columns sk pd OUTPUT_COLS (output_cols_nodup) _ _ _ _ Hfold)
    as (Hdf & _ & _ & Hother & Habsent & Hpresent).
  simpl in Hdf, Hother, Habsent, Hpresent.
  split; [exact Hdf|]. split; [|split].
  - intros col m Hm.
    destruct (in_dec string_dec col OUTPUT_COLS) as [Hin|Hnin].
    + destruct (has_column (df self) col) eqn:Hhas.
      * destruct (Hpresent col Hin Hhas)
          as (lin & r2 & mae & _ & _ & _ & _ & _ & El & _ & _ & Hm' & _).
        right. exists r2, mae. congruence.
      * left. destruct (Habsent col Hin Hhas) as [<- _]. exact Hm.
    + left. destruct (Hother col Hnin) as [<- _]. exact Hm.
  - exact Hpresent.
  - intros sk2 pd2 self2 results2 out2 out2' Hfit Hrun2.
    destruct (run_analysis_ok sk2 pd2 _ _ _ _ Hrun2) as (out3 & _ & Hfold2).
    pose proof (foldM_columns_agree sk2 sk pd2 pd OUTPUT_COLS Hfit
                  _ _ _ _ _ _ _ Hfold2 Hfold) as E.
    now injection E.
Qed.

(** * What the loader and the loop do with a deficient table *)

Lemma has_column_index {A} (d : DataFrame A) (col : string) :
  has_column d col = false -> index_of col (columns d) = None.
Proof. unfold has_column. now destruct (index_of col (columns d)). Qed.

Lemma analyze_linear_missing_input (sk : Estimators) self :
  (exists c, In c INPUT_COLS /\ has_column (df self) c = false) ->
  exists k, In k INPUT_COLS /\ has_column (df self) k = false /\
            forall col, analyze_linear sk self col = Raise (KeyError k).
Proof.
  intros (c & Hin & Hno).
  destruct (indices_of_missing INPUT_COLS (columns (df self)))
    as (k & Hk & Hnone & E).
  { exists c. split; [exact Hin | now apply has_column_index]. }
  exists k. split; [exact Hk|]. split.
  - unfold has_column. now rewrite Hnone.
  - intros col. unfold analyze_linear, getitem_list. rewrite E. reflexivity.
Qed.

(** C2, as the code has it: the constructor reports no data error; it
    completes on every table [read_csv] delivers and keeps the table the
    three cleaning steps leave, with zero rows or without a required
    column as it may be.  In [run_analysis] an output column the table
    lacks is announced and skipped, and the loop goes on with the analyzer
    and the summaries unchanged; an input column the table lacks makes
    the first fit raise KeyError, which ends the run. *)
Theorem loader_accepts_any_table :
  (forall (pd : Pandas) (path : string) (raw : DataFrame cell)
          (out : list string),
      read_csv pd path = Ok raw ->
      exists out',
        __init__ pd path out
        = (out', Ok (mkAnalyzer (load (parse_number pd) raw) [] []))) /\
  (forall (sk : Estimators) (pd : Pandas) self results col out,
      has_column (df self) col = false ->
      analyze_column sk pd (self, results) col out
      = ((out ++ [(nl ++ "Skipping " ++ col ++ " - not in data")%string])%list,
         Ok (self, results))) /\
  (forall (sk : Estimators) (pd : Pandas) self out,
      (exists c, In c INPUT_COLS /\ has_column (df self) c = false) ->
      (exists col, In col OUTPUT_COLS /\ has_column (df self) col = true) ->
      exists out' k,
        In k INPUT_COLS /\ has_column (df self) k = false /\
        run_analysis sk pd self out = (out', Raise (KeyError k))).
Proof.
  split; [|split].
  - intros. now apply init_total.
  - intros. now apply analyze_column_absent.
  - intros sk pd self out Hmissing Hpresent.
    destruct (analyze_linear_missing_input sk self Hmissing)
      as (k & Hk & Hno & Hraise).
    rewrite run_analysis_unfold.
    destruct (foldM_first_raise sk pd OUTPUT_COLS self (KeyError k) Hraise
                Hpresent [] (((out ++ [rule])
                  ++ ["OOTP RATING -> STAT FORMULA ANALYSIS"%string]) ++ [rule]))
      as [out' E].
    exists out', k. auto.
Qed.


(** * The exact estimators never refuse a non-empty numeric table *)

Section ExactTotal.












End ExactTotal.

Section FrameAccess.

Lemma indices_of_ok (cols l : list string) :
  (forall c, In c cols -> index_of c l <> None) ->
  exists idx, indices_of cols l = Ok idx /\ length idx = length cols /\
              Forall (fun i => (i < length l)%nat) idx.
Proof.
  induction cols as [|c cols IH]; intros Hall; simpl.
  - exists []. auto.
  - destruct (index_of c l) as [i|] eqn:Ei.
    2:{ exfalso. apply (Hall c); [now left | exact Ei]. }
    destruct IH as (idx & E & Hlen & Hlt); [intros; apply Hall; now right|].
    rewrite E. simpl. exists (i :: idx). repeat split; simpl; [lia|].
    constructor; [eapply index_of_lt, Ei | exact Hlt].
Qed.


Lemma has_column_some {A} (d : DataFrame A) (c : string) :
  has_column d c = true -> index_of c (columns d) <> None.
Proof. unfold has_column. now destruct (index_of c (columns d)). Qed.




End FrameAccess.


(** * Recovering an exact line *)

Section Sums.

Lemma sq_nonneg (x : Q) : 0 <= x * x.
Proof.
  destruct (Qlt_le_dec x 0) as [H|H].
  - setoid_replace (x * x) with ((- x) * (- x)) by ring.
    apply Qmult_le_0_compat; lra.
  - now apply Qmult_le_0_compat.
Qed.





Lemma sum_map_nonneg {A} (F : A -> Q) (l : list A) :
  (forall a, 0 <= F a) -> 0 <= Vec.sum (map F l).
Proof.
  intros H. unfold Vec.sum. induction l as [|a l IH]; simpl; [discriminate|].
  specialize (H a). lra.
Qed.





Lemma length_pos_Q {A} (l : list A) :
  l <> [] -> 0 < inject_Z (Z.of_nat (length l)).
Proof.
  intros H. destruct l; [congruence|].
  rewrite <- (Zlt_Qlt 0). simpl length. lia.
Qed.



End Sums.

Section ExactLine.

Variables c2 c3 c4 c5 : Q.
Variable xs : list Q.

Let rowf (a : Q) : list Q := [a; c2; c3; c4; c5].
Let Xq : list (list Q) := map rowf xs.
Let yq : list Q := map (fun a => 2 * a + 3) xs.
Let mx : Q := Vec.mean (map (fun a => a) xs).
Let S : Q := Vec.sum (map (fun a => (a - mx) * (a - mx)) xs).

Hypothesis varies : exists a b, In a xs /\ In b xs /\ ~ a == b.




Let o2 : Q := Vec.mean (map (fun _ : Q => c2) xs).
Let my : Q := Vec.mean yq.












End ExactLine.


(** * Degenerate least squares *)

Section ZeroDesign.





End ZeroDesign.

(** * The claims on example tables *)

Section Examples.

Import Demo.
Local Open Scope string_scope.






(** C2 fails as stated: a table without rows is loaded without an error,
    and a run on a table without the column [hr] completes, with the
    summaries of the four other stats. *)
Lemma deficient_tables_are_accepted :
  (exists out self,
      __init__ (pandas_with empty_csv) "data.csv" [] = (out, Ok self) /\
      rows (df self) = []) /\
  has_column (df (analyzer_of no_hr_csv)) "hr" = false /\
  (exists out self results,
      run_analysis Exact.estimators (pandas_with no_hr_csv)
        (analyzer_of no_hr_csv) [] = (out, Ok (self, results)) /\
      map stat results = ["hits allowed"; "bb"; "k"; "ip"]).
Proof.
  split; [|split].
  - do 2 eexists. split; [vm_compute; reflexivity | reflexivity].
  - reflexivity.
  - do 3 eexists. split; [vm_compute; reflexivity | reflexivity].
Qed.

Lemma loader_accepts_any_table_witness :
  exists out',
    __init__ (pandas_with empty_csv) "data.csv" []
    = (out', Ok (mkAnalyzer (load (parse_number (pandas_with empty_csv)) empty_csv)
                   [] [])).
Proof.
  exact (proj1 loader_accepts_any_table (pandas_with empty_csv) "data.csv"
           empty_csv [] eq_refl).
Defined.



Lemma loader_text_column_empties_table_witness :
  exists out' self,
    __init__ (pandas_with named_csv) "data.csv" [] = (out', Ok self) /\
    columns (df self) = ["name"; "stuff"; "hr"] /\
    rows (df self) = [].
Proof.
  apply (loader_text_column_empties_table (pandas_with named_csv) "data.csv"
           named_csv [] 0 eq_refl).
  - simpl. lia.
  - repeat constructor; eexists; split; reflexivity.
Defined.





(** On the parabola the degree-2 model explains more (R2 0.4375 against
    0); the model stored is the linear one all the same. *)
Lemma stored_model_is_linear_witness :
  exists out' self' results,
    run_analysis Exact.estimators (pandas_with parabola_csv)
      (analyzer_of parabola_csv) [] = (out', Ok (self', results)) /\
    dict_get (models self') "hr" = Some (mkModel [0; 0; 0; 0; 0] (2 # 3)) /\
    df self' = df (analyzer_of parabola_csv) /\
    (forall col m,
        dict_get (models self') col = Some m ->
        dict_get (models (analyzer_of parabola_csv)) col = Some m \/
        exists r2 mae,
          analyze_linear Exact.estimators (analyzer_of parabola_csv) col
          = Ok (m, r2, mae)).
Proof.
  do 3 eexists.
  match goal with
  | |- ?A /\ _ => assert (H : A) by (vm_compute; reflexivity)
  end.
  split; [exact H|]. split; [vm_compute; reflexivity|]. split.
  - exact (proj1 (stored_model_is_linear _ _ _ _ _ _ _ H)).
  - exact (proj1 (proj2 (stored_model_is_linear _ _ _ _ _ _ _ H))).
Defined.

End Examples.

(** * The formula, the coefficient table and the prediction test *)

Section Reports.

Variable sk : Estimators.
Variable pd : Pandas.

Local Open Scope string_scope.

Lemma formula_terms_short (cols : list string) (coeffs : list Q) (i : nat) :
  cols <> [] -> (length coeffs < i + length cols)%nat ->
  formula_terms coeffs i cols = Raise IndexError.
Proof.
  revert i. induction cols as [|c cols IH]; intros i Hne Hlen; [congruence|].
  cbn [formula_terms]. destruct (nth_error coeffs i) as [a|] eqn:E; [|reflexivity].
  assert (i < length coeffs)%nat by (apply nth_error_Some; congruence).
  destruct cols as [|c' cols'].
  - simpl in Hlen. lia.
  - rewrite IH; [reflexivity | discriminate | simpl in *; lia].
Qed.

(** X1 (lines 83-96): [format_formula] reads the first five coefficients
    and nothing else of [coef_].  A model with fewer than five
    coefficients (a single-variable fit, say) ends in [IndexError]; with
    five or more the formula is the output name, the intercept with two
    decimals, and the terms of the non-negligible coefficients in the
    order of [INPUT_COLS]; a sixth coefficient and later ones are never
    looked at. *)
Theorem format_formula_cases :
  forall (model : Model) (output_name : string),
    format_formula model output_name
    = if Nat.ltb (length (coef_ model)) 5 then Raise IndexError
      else Ok (output_name ++ " = "
                 ++ Fmt.fixed false 2 (Fin (intercept_ model)) ++ " "
                 ++ Fmt.join " "
                      (flat_map (fun cc => if Qgtb (Qabs (fst cc)) threshold
                                           then [term (fst cc) (snd cc)]
                                           else [])
                         (combine (coef_ model) INPUT_COLS))).
Proof.
  intros model name. unfold format_formula.
  destruct (Nat.ltb (length (coef_ model)) 5) eqn:E.
  - apply Nat.ltb_lt in E.
    rewrite formula_terms_short; [reflexivity | discriminate | simpl; lia].
  - apply Nat.ltb_ge in E.
    rewrite formula_terms_spec by (simpl; lia). reflexivity.
Qed.

Lemma for_each_prints {A} (l : list A) (body : A -> M unit)
  (line : A -> list string) :
  (forall a out, In a l -> body a out = ((out ++ line a)%list, Ok tt)) ->
  forall out, for_each l body out = ((out ++ flat_map line l)%list, Ok tt).
Proof.
  unfold for_each. induction l as [|a l IH]; intros Hb out; cbn [foldM flat_map].
  - unfold ret. now rewrite app_nil_r.
  - unfold mbind at 1. rewrite Hb by now left.
    rewrite IH by (intros; apply Hb; now right).
    now rewrite app_assoc.
Qed.

Lemma print_then {A} (s : string) (k : M A) (out : list string) :
  mbind (print s) (fun _ => k) out = k (out ++ [s])%list.
Proof. reflexivity. Qed.

(** X2 (lines 190-210): [print_coefficient_table] cannot fail.  It prints
    the title block, the header (81 characters wide) and a line of 81
    dashes, then one row per stat of [OUTPUT_COLS] that has a model, in
    the order of [OUTPUT_COLS] whatever the order of insertion; a stat
    without a model gives no row, and models stored under other names are
    not shown.  A row has one field per coefficient of the model, whatever
    their number. *)
Theorem coefficient_table_rows :
  forall (self : FormulaAnalyzer) (out : list string),
    print_coefficient_table self out
    = ((out ++
        [(nl ++ rule)%string; "COEFFICIENT TABLE (for implementation)"; rule;
         "Stat             Intercept      stuff    control        hra   movement      babip";
         Fmt.repeat_string "-" 81] ++
        flat_map
          (fun output_col =>
             match dict_get (models self) output_col with
             | None => []
             | Some model =>
                 [fold_left
                    (fun row coef =>
                       row ++ " " ++ Fmt.rjust 10 (Fmt.fixed false 4 (Fin coef)))%string
                    (coef_ model)
                    (Fmt.ljust 15 output_col ++ " "
                       ++ Fmt.rjust 10
                            (Fmt.fixed false 2 (Fin (intercept_ model))))%string]
             end) OUTPUT_COLS)%list, Ok tt).
Proof.
  intros self out. unfold print_coefficient_table.
  rewrite !print_then.
  erewrite for_each_prints.
  - f_equal. repeat rewrite <- app_assoc. reflexivity.
  - intros a o _. cbv beta.
    destruct (dict_get (models self) a) as [m|].
    + reflexivity.
    + unfold ret. now rewrite app_nil_r.
Qed.






End Reports.

(** * What a completed run leaves behind *)

Section AfterRun.

Variable sk : Estimators.
Variable pd : Pandas.

Local Open Scope string_scope.

Lemma analyze_linear_inv self col m r2 mae :
  analyze_linear sk self col = Ok (m, r2, mae) ->
  exists X y p,
    getitem_list (df self) INPUT_COLS = Ok X /\
    getitem (df self) col = Ok y /\
    LinearRegression_fit sk X y = Ok m /\
    Sklearn.predict m X = Ok p /\
    Sklearn.r2_score y p = Ok r2 /\
    Sklearn.mean_absolute_error y p = Ok mae.
Proof.
  unfold analyze_linear.
  destruct (getitem_list (df self) INPUT_COLS) as [X|] eqn:EX; [|discriminate].
  destruct (getitem (df self) col) as [y|] eqn:Ey; [|discriminate].
  cbn [bind].
  destruct (LinearRegression_fit sk X y) as [m'|] eqn:Em; [|discriminate].
  cbn [bind].
  destruct (Sklearn.predict m' X) as [p|] eqn:Ep; [|discriminate].
  cbn [bind].
  destruct (Sklearn.r2_score y p) as [a|] eqn:Er; [|discriminate].
  cbn [bind].
  destruct (Sklearn.mean_absolute_error y p) as [b|] eqn:Ea; [|discriminate].
  cbn [bind]. intros [= <- <- <-]. exists X, y, p. tauto.
Qed.

Lemma analyze_polynomial_inv self col d m t r2 mae :
  analyze_polynomial sk self col d = Ok (m, t, r2, mae) ->
  exists X y Xp p,
    getitem_list (df self) INPUT_COLS = Ok X /\
    getitem (df self) col = Ok y /\
    Sklearn.fit_transform (mkPoly d) X = Ok Xp /\
    Ridge_fit sk 1 Xp y = Ok m /\
    t = mkPoly d /\
    Sklearn.predict m Xp = Ok p /\
    Sklearn.r2_score y p = Ok r2 /\
    Sklearn.mean_absolute_error y p = Ok mae.
Proof.
  unfold analyze_polynomial.
  destruct (getitem_list (df self) INPUT_COLS) as [X|] eqn:EX; [|discriminate].
  destruct (getitem (df self) col) as [y|] eqn:Ey; [|discriminate].
  cbn [bind].
  destruct (Sklearn.fit_transform (mkPoly d) X) as [Xp|] eqn:Et; [|discriminate].
  cbn [bind].
  destruct (Ridge_fit sk 1 Xp y) as [m'|] eqn:Em; [|discriminate].
  cbn [bind].
  destruct (Sklearn.predict m' Xp) as [p|] eqn:Ep; [|discriminate].
  cbn [bind].
  destruct (Sklearn.r2_score y p) as [a|] eqn:Er; [|discriminate].
  cbn [bind].
  destruct (Sklearn.mean_absolute_error y p) as [b|] eqn:Ea; [|discriminate].
  cbn [bind]. intros [= <- <- <- <-]. exists X, y, Xp, p. tauto.
Qed.

Lemma dict_get_absent {V} (d : list (string * V)) (k : string) :
  ~ In k (map fst d) -> dict_get d k = None.
Proof.
  induction d as [|[k' v] d IH]; intros H; [reflexivity|].
  cbn [dict_get]. destruct (String.eqb_spec k k') as [->|N].
  - exfalso. apply H. now left.
  - apply IH. intros Hin. apply H. now right.
Qed.

Lemma dict_set_absent {V} (d : list (string * V)) (k : string) (v : V) :
  dict_get d k = None -> dict_set d k v = (d ++ [(k, v)])%list.
Proof.
  induction d as [|[k' v'] d IH]; intros H; [reflexivity|].
  cbn [dict_get dict_set] in *. destruct (String.eqb k k'); [discriminate|].
  now rewrite IH.
Qed.

Lemma dict_set_same {V} (d : list (string * V)) (k : string) (v : V) :
  dict_get d k = Some v -> dict_set d k v = d.
Proof.
  induction d as [|[k' v'] d IH]; intros H; [discriminate|].
  cbn [dict_get dict_set] in *. destruct (String.eqb k k').
  - now injection H as ->.
  - now rewrite IH.
Qed.

(** The loop of [run_analysis], started where the two dictionaries hold
    what the summaries say. *)
Lemma foldM_fresh (l : list string) :
  NoDup l ->
  forall st out out' st',
    formulas (fst st) = map (fun s => (stat s, formula s)) (snd st) ->
    map fst (models (fst st)) = map stat (snd st) ->
    (forall s, In s (snd st) -> ~ In (stat s) l) ->
    Forall (fun s => exists lin mae,
                dict_get (models (fst st)) (stat s) = Some lin /\
                analyze_linear sk (fst st) (stat s) = Ok (lin, r2 s, mae))
           (snd st) ->
    foldM (analyze_column sk pd) l st out = (out', Ok st') ->
    formulas (fst st') = map (fun s => (stat s, formula s)) (snd st') /\
    map fst (models (fst st')) = map stat (snd st') /\
    map stat (snd st')
    = (map stat (snd st) ++ filter (has_column (df (fst st))) l)%list /\
    Forall (fun s => exists lin mae,
                dict_get (models (fst st')) (stat s) = Some lin /\
                analyze_linear sk (fst st') (stat s) = Ok (lin, r2 s, mae))
           (snd st').
Proof.
  induction 1 as [|a l Ha Hnd IH]; intros [self res] out out' st' Hf Hm Hnew Hall Hrun.
  - cbn [foldM] in Hrun. unfold ret in Hrun. injection Hrun as <- <-.
    cbn [filter]. rewrite app_nil_r. repeat split; assumption.
  - cbn [foldM] in Hrun. cbn [fst snd] in *.
    destruct (mbind_ok _ _ _ _ _ Hrun) as (out1 & st1 & Hcol & Hrest).
    destruct (analyze_column_ok sk pd _ _ _ _ _ _ Hcol)
      as [(Habs & -> & _)|(Hpres & lin & q & e & pm & pt & pr2 & pmae & f &
                           Hlin & _ & _ & -> & _)].
    + destruct (IH (self, res) out1 out' st' Hf Hm) as (H1 & H2 & H3 & H4).
      * intros s Hs Hin. apply (Hnew s Hs). now right.
      * exact Hall.
      * exact Hrest.
      * cbn [fst snd] in *. cbn [filter]. rewrite Habs. repeat split; assumption.
    + assert (Hfresh : ~ In a (map stat res)).
      { intros Hin. apply in_map_iff in Hin. destruct Hin as (s & Es & Hs).
        apply (Hnew s Hs). left. now rewrite Es. }
      assert (Ef : dict_get (formulas self) a = None).
      { apply dict_get_absent. rewrite Hf, map_map. exact Hfresh. }
      assert (Em : dict_get (models self) a = None).
      { apply dict_get_absent. now rewrite Hm. }
      destruct (IH (mkAnalyzer (df self) (dict_set (formulas self) a f)
                      (dict_set (models self) a lin),
                    (res ++ [mkSummary a q e f])%list) out1 out' st')
        as (H1 & H2 & H3 & H4).
      * cbn [fst snd formulas]. rewrite (dict_set_absent _ _ _ Ef), Hf, map_app.
        reflexivity.
      * cbn [fst snd models]. rewrite (dict_set_absent _ _ _ Em), !map_app, Hm.
        reflexivity.
      * cbn [snd]. intros s Hs Hin. apply in_app_or in Hs.
        destruct Hs as [Hs|[<-|[]]].
        -- apply (Hnew s Hs). now right.
        -- now apply Ha.
      * cbn [fst snd models]. apply Forall_app. split.
        -- eapply Forall_impl; [|exact Hall]. cbv beta.
           intros s (lin' & mae' & Hg & Hl). exists lin', mae'. split.
           ++ rewrite dict_get_set.
              destruct (String.eqb_spec (stat s) a) as [E|_]; [|exact Hg].
              rewrite E in Hg. congruence.
           ++ rewrite <- Hl. now apply analyze_linear_df.
        -- constructor; [|constructor]. exists lin, e. cbn [stat r2]. split.
           ++ rewrite dict_get_set, String.eqb_refl. reflexivity.
           ++ rewrite <- Hlin. now apply analyze_linear_df.
      * exact Hrest.
      * cbn [fst snd df] in *. cbn [filter]. rewrite Hpres.
        repeat split; try assumption.
        rewrite H3, map_app, <- app_assoc. reflexivity.
Qed.

Lemma run_fresh self out out' self' results :
  formulas self = [] -> models self = [] ->
  run_analysis sk pd self out = (out', Ok (self', results)) ->
  formulas self' = map (fun s => (stat s, formula s)) results /\
  map fst (models self') = map stat results /\
  map stat results = filter (has_column (df self)) OUTPUT_COLS /\
  Forall (fun s => exists lin mae,
              dict_get (models self') (stat s) = Some lin /\
              analyze_linear sk self' (stat s) = Ok (lin, r2 s, mae))
         results.
Proof.
  intros Hf Hm Hrun.
  destruct (run_analysis_ok sk pd _ _ _ _ Hrun) as (out0 & _ & Hfold).
  apply (foldM_fresh OUTPUT_COLS output_cols_nodup (self, []) out0 out'
           (self', results)); cbn [fst snd map].
  - exact Hf.
  - now rewrite Hm.
  - intros s [].
  - constructor.
  - exact Hfold.
Qed.

(** X5 (lines 118-171): a completed run on a new analyzer fills the two
    dictionaries and the list of summaries alike: the keys of [formulas],
    the keys of [models] and the stats of the summaries are the output
    stats that are columns of the table, in the order of [OUTPUT_COLS],
    and [formulas] maps each of them to the formula of its summary. *)
Theorem run_fills_dictionaries_in_order :
  forall (self self' : FormulaAnalyzer) (results : list Summary)
         (out out' : list string),
    formulas self = [] -> models self = [] ->
    run_analysis sk pd self out = (out', Ok (self', results)) ->
    map stat results = filter (has_column (df self)) OUTPUT_COLS /\
    map fst (models self') = filter (has_column (df self)) OUTPUT_COLS /\
    formulas self' = map (fun s => (stat s, formula s)) results.
Proof.
  intros self self' results out out' Hf Hm Hrun.
  destruct (run_fresh _ _ _ _ _ Hf Hm Hrun) as (H1 & H2 & H3 & _).
  rewrite H2, H3. auto.
Qed.

Lemma for_each_map {A B} (g : A -> B) (l : list A) (body : B -> M unit)
  (out : list string) :
  for_each (map g l) body out = for_each l (fun a => body (g a)) out.
Proof.
  unfold for_each. generalize tt. revert out.
  induction l as [|a l IH]; intros out u; cbn [map foldM]; [reflexivity|].
  unfold mbind. destruct (body (g a) out) as [o [v|e]]; [apply IH | reflexivity].
Qed.

(** X6 (lines 173-188, after 118-171): [print_summary] after a completed
    run on a new analyzer cannot fail (every formula has its model), and
    the R2 it computes again from the stored model is the R2 of the linear
    fit that the run reported: after its seven title lines it prints, for
    each summary in order, the formula and that R2 with three decimals. *)
Theorem summary_repeats_linear_r2 :
  forall (self self' : FormulaAnalyzer) (results : list Summary)
         (out out' out2 : list string),
    formulas self = [] -> models self = [] ->
    run_analysis sk pd self out = (out', Ok (self', results)) ->
    print_summary self' out2
    = ((out2 ++
        [(nl ++ rule)%string; "SUMMARY: DERIVED FORMULAS"; rule;
         (nl ++ "Note: BABIP in these formulas uses editor scale (1-250).")%string;
         "      To use with UI scale (20-80), convert first:";
         "      babip_editor = 1 + (babip_ui - 20) * 249 / 60";
         ""] ++
        flat_map
          (fun s => [formula s;
                     ("  (R² = " ++ Fmt.fixed false 3 (r2 s) ++ ")" ++ nl)%string])
          results)%list, Ok tt).
Proof.
  intros self self' results out out' out2 Hf Hm Hrun.
  destruct (run_fresh _ _ _ _ _ Hf Hm Hrun) as (H1 & _ & _ & H4).
  unfold print_summary. rewrite !print_then. rewrite H1, for_each_map.
  erewrite for_each_prints.
  - f_equal. repeat rewrite <- app_assoc. reflexivity.
  - intros s o Hs. cbv beta iota.
    rewrite Forall_forall in H4. destruct (H4 s Hs) as (lin & e & Hg & Hl).
    destruct (analyze_linear_inv _ _ _ _ _ Hl)
      as (X & y & p & EX & Ey & _ & Ep & Er & _).
    rewrite Hg. unfold mbind, lift. rewrite EX, Ep, Ey, Er.
    unfold print. rewrite <- app_assoc. reflexivity.
Qed.

Lemma foldM_stable (l : list string) :
  forall s res out out' st',
    (forall col, In col l -> has_column (df s) col = true ->
       exists lin q e f,
         analyze_linear sk s col = Ok (lin, q, e) /\
         format_formula lin col = Ok f /\
         dict_get (models s) col = Some lin /\
         dict_get (formulas s) col = Some f) ->
    foldM (analyze_column sk pd) l (s, res) out = (out', Ok st') ->
    fst st' = s.
Proof.
  induction l as [|a l IH]; intros s res out out' st' Hs Hrun.
  - cbn [foldM] in Hrun. unfold ret in Hrun. now injection Hrun as <- <-.
  - cbn [foldM] in Hrun.
    destruct (mbind_ok _ _ _ _ _ Hrun) as (out1 & st1 & Hcol & Hrest).
    destruct (analyze_column_ok sk pd _ _ _ _ _ _ Hcol)
      as [(Habs & -> & _)|(Hpres & lin & q & e & pm & pt & pr2 & pmae & f &
                           Hlin & _ & Hfmt & -> & _)].
    + apply (IH s res out1 out' st'); [|exact Hrest].
      intros col Hin. apply Hs. now right.
    + destruct (Hs a (or_introl eq_refl) Hpres)
        as (lin' & q' & e' & f' & Hlin' & Hfmt' & Hgm & Hgf).
      assert (lin' = lin) by congruence. subst lin'.
      assert (f' = f) by congruence. subst f'.
      rewrite (dict_set_same _ _ _ Hgm), (dict_set_same _ _ _ Hgf) in Hrest.
      destruct s as [d fs ms]. cbn [df formulas models] in *.
      refine (IH _ _ out1 out' st' _ Hrest).
      intros col Hin. apply Hs. now right.
Qed.

(** X7 (lines 118-171): calling [run_analysis] a second time on the same
    analyzer changes nothing.  When a run from [self] completes with the
    analyzer [self'] and the summaries [results], a run from [self']
    prints the same lines, leaves [self'] as it is (each model and formula
    is overwritten with itself, in place) and returns the same
    summaries. *)
Theorem rerun_changes_nothing :
  forall (self self' : FormulaAnalyzer) (results : list Summary)
         (out out' : list string),
    run_analysis sk pd self out = (out', Ok (self', results)) ->
    run_analysis sk pd self' out = (out', Ok (self', results)).
Proof.
  intros self self' results out out' Hrun.
  rewrite run_analysis_unfold in *.
  destruct (foldM_columns sk pd OUTPUT_COLS output_cols_nodup _ _ _ _ Hrun)
    as (Hdf & _ & _ & _ & _ & Hpresent).
  cbn [fst snd] in *.
  pose proof (fun o => foldM_same sk pd OUTPUT_COLS self' self [] o Hdf) as Hsame.
  match type of Hrun with
  | foldM _ _ _ ?o = _ => specialize (Hsame o); rewrite Hrun in Hsame
  end.
  destruct Hsame as [Ho Hr]. cbn [fst snd] in *.
  match goal with
  | |- ?lhs = _ => destruct lhs as [o2 [[s2 res2]|e2]] eqn:E2
  end; cbn [fst snd] in *; [|contradiction].
  destruct Hr as [_ ->]. subst o2.
  assert (s2 = self'); [|now subst].
  apply (foldM_stable _ _ _ _ _ _) in E2 as Hst; [exact Hst|].
  intros col Hin Hhas. rewrite Hdf in Hhas.
  destruct (Hpresent col Hin Hhas)
    as (lin & q & e & _ & _ & _ & _ & f & Hlin & _ & Hfmt & Hgm & Hgf & _).
  exists lin, q, e, f. repeat split; try assumption.
  rewrite <- Hlin. now apply analyze_linear_df.
Qed.

Lemma finite_row_length (r : list pyfloat) (l : list Q) :
  Sklearn.finite_row r = Some l -> length l = length r.
Proof.
  revert l. unfold Sklearn.finite_row.
  induction r as [|x r IH]; intros l; cbn [fold_right].
  - now intros [= <-].
  - destruct x as [q|]; [|discriminate].
    destruct (fold_right _ _ r) as [l'|]; [|discriminate].
    intros [= <-]. cbn [length]. now rewrite (IH l' eq_refl).
Qed.

Lemma finite_rows_length (X : list (list pyfloat)) (Xq : list (list Q)) :
  Sklearn.finite_rows X = Some Xq -> length Xq = length X.
Proof.
  revert Xq. unfold Sklearn.finite_rows.
  induction X as [|r X IH]; intros Xq; cbn [fold_right].
  - now intros [= <-].
  - destruct (Sklearn.finite_row r) as [r'|]; [|discriminate].
    destruct (fold_right _ _ X) as [l'|]; [|discriminate].
    intros [= <-]. cbn [length]. now rewrite (IH l' eq_refl).
Qed.

Lemma check_vector_length (y : list pyfloat) (yq : list Q) :
  Sklearn.check_vector y = Ok yq -> length yq = length y /\ y <> [].
Proof.
  unfold Sklearn.check_vector. destruct y as [|a y]; [discriminate|].
  destruct (Sklearn.finite_row (a :: y)) as [l|] eqn:E; [|discriminate].
  intros [= <-]. split; [now apply finite_row_length | discriminate].
Qed.

Lemma predict_length (m : Model) (X : list (list pyfloat)) (p : list pyfloat) :
  Sklearn.predict m X = Ok p -> length p = length X.
Proof.
  unfold Sklearn.predict, Sklearn.check_array. destruct X as [|r X]; [discriminate|].
  destruct (Sklearn.finite_rows (r :: X)) as [Xq|] eqn:E; [|discriminate].
  cbn [bind]. destruct (forallb _ Xq); [|discriminate].
  intros [= <-]. rewrite length_map. now apply finite_rows_length.
Qed.

Lemma sum_sq_nonneg (v : list Q) : 0 <= Sklearn.sum_sq v.
Proof. unfold Sklearn.sum_sq. apply sum_map_nonneg. intros a. apply sq_nonneg. Qed.

Lemma r2_score_bound (y p : list pyfloat) (r : pyfloat) :
  Sklearn.r2_score y p = Ok r ->
  match r with
  | Fin q => q <= 1 /\ (2 <= length p)%nat
  | NaN => length p = 1%nat
  end.
Proof.
  unfold Sklearn.r2_score.
  destruct (Sklearn.check_vector y) as [yq|] eqn:Ey; [|discriminate].
  destruct (Sklearn.check_vector p) as [pq|] eqn:Ep; [|discriminate].
  cbn [bind].
  destruct (Sklearn.check_consistent_length yq pq); [|discriminate].
  cbn [bind].
  destruct (check_vector_length _ _ Ep) as [Hlen Hne].
  destruct (Nat.ltb (length pq) 2) eqn:E2.
  - intros [= <-]. apply Nat.ltb_lt in E2. destruct p; [congruence|].
    cbn [length] in *. lia.
  - apply Nat.ltb_ge in E2.
    pose proof (sum_sq_nonneg (Vec.sub yq pq)) as Hn.
    pose proof (sum_sq_nonneg (map (fun a => a - Vec.mean yq) yq)) as Hd.
    destruct (Qeq_bool _ 0) eqn:Ed.
    + destruct (Qeq_bool (Sklearn.sum_sq (Vec.sub yq pq)) 0);
        intros [= <-]; (split; [lra | lia]).
    + intros [= <-]. split; [|lia].
      apply Qeq_bool_neq in Ed.
      set (n := Sklearn.sum_sq (Vec.sub yq pq)) in *.
      set (d := Sklearn.sum_sq (map (fun a => a - Vec.mean yq) yq)) in *.
      assert (0 < d) by (apply Qle_lteq in Hd; destruct Hd as [Hd|Hd];
                         [exact Hd | exfalso; apply Ed; symmetry; exact Hd]).
      assert (0 <= n / d) by (apply Qle_shift_div_l; [assumption | lra]).
      lra.
Qed.

Lemma mean_abs_nonneg (v : list Q) : 0 <= Vec.mean (map Qabs v).
Proof.
  unfold Vec.mean.
  pose proof (sum_map_nonneg Qabs v Qabs_nonneg) as Hs.
  set (s := Vec.sum (map Qabs v)) in *.
  set (k := length (map Qabs v)).
  assert (Hk : 0 <= inject_Z (Z.of_nat k)) by (rewrite <- (Zle_Qle 0); lia).
  apply Qle_lteq in Hk. destruct Hk as [Hk|Hk].
  - apply Qle_shift_div_l; [exact Hk | lra].
  - unfold Qdiv. rewrite <- Hk. unfold Qinv. simpl. lra.
Qed.

Lemma mae_bound (y p : list pyfloat) (r : pyfloat) :
  Sklearn.mean_absolute_error y p = Ok r -> exists a, r = Fin a /\ 0 <= a.
Proof.
  unfold Sklearn.mean_absolute_error.
  destruct (Sklearn.check_vector y) as [yq|]; [|discriminate].
  destruct (Sklearn.check_vector p) as [pq|]; [|discriminate].
  cbn [bind].
  destruct (Sklearn.check_consistent_length yq pq); [|discriminate].
  cbn [bind]. intros [= <-]. eexists. split; [reflexivity|].
  apply mean_abs_nonneg.
Qed.

Lemma getitem_list_length (d : DataFrame pyfloat) (cols : list string) X :
  getitem_list d cols = Ok X -> length X = length (rows d).
Proof.
  unfold getitem_list. destruct (indices_of cols (columns d)); [|discriminate].
  cbn [bind]. intros [= <-]. apply length_map.
Qed.

(** X8 (lines 60-62 and 77-79): whatever coefficients the estimator
    returns, the scores that [analyze_linear] and [analyze_polynomial]
    report obey the bounds of their definitions: the mean absolute error
    is a number and is not negative, and R2 is at most 1 (it has no lower
    bound).  R2 is NaN exactly for a table of one row, and a number for
    two rows or more. *)
Theorem reported_scores_are_bounded :
  forall (self : FormulaAnalyzer) (col : string),
    (forall m r2 mae,
        analyze_linear sk self col = Ok (m, r2, mae) ->
        (exists a, mae = Fin a /\ 0 <= a) /\
        match r2 with
        | Fin q => q <= 1 /\ (2 <= length (rows (df self)))%nat
        | NaN => length (rows (df self)) = 1%nat
        end) /\
    (forall degree m poly r2 mae,
        analyze_polynomial sk self col degree = Ok (m, poly, r2, mae) ->
        (exists a, mae = Fin a /\ 0 <= a) /\
        match r2 with
        | Fin q => q <= 1 /\ (2 <= length (rows (df self)))%nat
        | NaN => length (rows (df self)) = 1%nat
        end).
Proof.
  intros self col. split.
  - intros m r mae H.
    destruct (analyze_linear_inv _ _ _ _ _ H)
      as (X & y & p & EX & _ & _ & Ep & Er & Ea).
    split; [exact (mae_bound _ _ _ Ea)|].
    rewrite <- (getitem_list_length _ _ _ EX), <- (predict_length _ _ _ Ep).
    exact (r2_score_bound _ _ _ Er).
  - intros d m t r mae H.
    destruct (analyze_polynomial_inv _ _ _ _ _ _ _ H)
      as (X & y & Xp & p & EX & _ & Et & _ & _ & Ep & Er & Ea).
    split; [exact (mae_bound _ _ _ Ea)|].
    assert (length Xp = length X) as EXp.
    { unfold Sklearn.fit_transform, Sklearn.check_array in Et.
      destruct X as [|r0 X0]; [discriminate|].
      destruct (Sklearn.finite_rows (r0 :: X0)) as [Xq|] eqn:E; [|discriminate].
      cbn [bind] in Et. injection Et as <-. rewrite length_map.
      now apply finite_rows_length. }
    rewrite <- (getitem_list_length _ _ _ EX), <- EXp, <- (predict_length _ _ _ Ep).
    exact (r2_score_bound _ _ _ Er).
Qed.

End AfterRun.

(** * The whole script on a well-formed table *)

Section Pipeline.

Variable pd : Pandas.

Local Open Scope string_scope.

Lemma lift_ok {A B} (a : A) (k : A -> M B) (out : list string) :
  mbind (lift (Ok a)) k out = k a out.
Proof. reflexivity. Qed.

Lemma lift_raise {A B} (e : exn) (k : A -> M B) (out : list string) :
  mbind (lift (Raise e)) k out = (out, Raise e).
Proof. reflexivity. Qed.













(** X10 (lines 36 and 236): a file that [read_csv] cannot read ends
    [main] with the exception of [read_csv], before anything is printed;
    the path read is the first command-line argument when there is
    one. *)
Theorem main_stops_on_unreadable_file :
  forall (sk : Estimators) (prog path : string) (rest : list string)
         (e : exn) (out : list string),
    read_csv pd path = Raise e ->
    main sk pd (prog :: path :: rest) out = (out, Raise e).
Proof.
  intros sk prog path rest e out Hread.
  unfold main, mbind at 1, __init__, mbind at 1, lift. now rewrite Hread.
Qed.

End Pipeline.

(** * The table without rows *)

Section EmptyTable.

Variable sk : Estimators.
Variable pd : Pandas.

Local Open Scope string_scope.

Lemma foldM_raise_present (l : list string) self e :
  (forall col, has_column (df self) col = true ->
               analyze_linear sk self col = Raise e) ->
  (exists col, In col l /\ has_column (df self) col = true) ->
  forall res out, exists out',
    foldM (analyze_column sk pd) l (self, res) out = (out', Raise e).
Proof.
  intros Hraise. induction l as [|a l IH]; intros (col & Hin & Hhas) res out.
  - contradiction.
  - cbn [foldM]. unfold mbind.
    destruct (has_column (df self) a) eqn:Ha.
    + destruct (analyze_column_linear_raise sk pd self res a out e Ha
                  (Hraise a Ha)) as [out' ->]. eauto.
    + rewrite (analyze_column_absent sk pd self res a out Ha).
      apply IH. exists col. destruct Hin as [<-|Hin]; [congruence | auto].
Qed.

(** X11 (lines 54-58 and 126-136): a table without rows is not refused
    when it is loaded; it ends the run at the first fit.  When the table
    has its input columns and no row, the matrix and the target handed to
    [LinearRegression.fit] are empty, and the exception with which the
    estimator refuses them ends [run_analysis] at the first output stat
    the table has. *)
Theorem empty_table_ends_run_at_first_fit :
  forall (self : FormulaAnalyzer) (e : exn) (out : list string),
    rows (df self) = [] ->
    (forall c, In c INPUT_COLS -> has_column (df self) c = true) ->
    (exists col, In col OUTPUT_COLS /\ has_column (df self) col = true) ->
    LinearRegression_fit sk [] [] = Raise e ->
    (forall col, has_column (df self) col = true ->
                 getitem_list (df self) INPUT_COLS = Ok [] /\
                 getitem (df self) col = Ok []) /\
    exists out', run_analysis sk pd self out = (out', Raise e).
Proof.
  intros self e out Hrows Hin Hout Hfit.
  assert (Hdata : forall col, has_column (df self) col = true ->
                    getitem_list (df self) INPUT_COLS = Ok [] /\
                    getitem (df self) col = Ok []).
  { intros col Hcol. split.
    - unfold getitem_list.
      destruct (indices_of_ok INPUT_COLS (columns (df self)))
        as (idx & -> & _).
      { intros c Hc. apply has_column_some. now apply Hin. }
      cbn [bind]. now rewrite Hrows.
    - unfold getitem. pose proof (has_column_some _ _ Hcol) as Hi.
      destruct (index_of col (columns (df self))); [|congruence].
      now rewrite Hrows. }
  split; [exact Hdata|].
  rewrite run_analysis_unfold. apply foldM_raise_present; [|exact Hout].
  intros col Hcol. unfold analyze_linear.
  destruct (Hdata col Hcol) as [-> ->]. cbn [bind]. now rewrite Hfit.
Qed.

Lemma series_fold_nil pick : series_fold pick [] = NaN.
Proof. reflexivity. Qed.

(** X12 (lines 45-50): what the constructor prints.  For every file read,
    the lines are the row count of the retained table, the heading of the
    ranges, one range line per input rating that is a column of the table
    (in the order of [INPUT_COLS], none for a rating the table lacks) and
    an empty line; no line is printed for an output stat.  On a table
    without rows the minimum and the maximum of every column are NaN. *)
Theorem constructor_prints_input_ranges :
  forall (path : string) (raw : DataFrame cell) (out : list string),
    read_csv pd path = Ok raw ->
    let d := load (parse_number pd) raw in
    __init__ pd path out
    = ((out ++
        [("Loaded " ++ str_nat (length (rows d)) ++ " rows of data" ++ nl)%string;
         "Input ranges:"] ++
        flat_map
          (fun col =>
             match getitem d col with
             | Ok c => [("  " ++ col ++ ": " ++ Fmt.fixed false 0 (series_min c)
                           ++ " - " ++ Fmt.fixed false 0 (series_max c))%string]
             | Raise _ => []
             end) INPUT_COLS ++
        [""])%list, Ok (mkAnalyzer d [] [])) /\
    (rows d = [] ->
     forall col c, getitem d col = Ok c ->
                   series_min c = NaN /\ series_max c = NaN).
Proof.
  intros path raw out Hread d. split.
  - unfold __init__. rewrite Hread, lift_ok. cbn [df]. fold d.
    rewrite !print_then. unfold mbind at 1.
    erewrite for_each_prints.
    + rewrite print_then. unfold ret. f_equal.
      repeat rewrite <- app_assoc. reflexivity.
    + intros col o _. cbv beta. unfold has_column, getitem.
      destruct (index_of col (columns d)) as [i|].
      * rewrite lift_ok. reflexivity.
      * unfold ret. now rewrite app_nil_r.
  - intros Hrows col c. unfold getitem.
    destruct (index_of col (columns d)); [|discriminate].
    rewrite Hrows. intros [= <-]. split; reflexivity.
Qed.

End EmptyTable.

(** * The minor-league formulas *)

Section ExpectedRates.

Import MinorLeague.

(** The projected FIP is built from the three expected rates of the other
    script and is affine in the ratings. *)
Lemma expected_fip_affine (row : Scouting) :
  expected_fip row
  == (13 * expected_hr9 (hra row) + 3 * expected_bb9 (control row)
      - 2 * expected_k9 (stuff row)) / 9 + (347 # 100) /\
  expected_fip row
  == (6979 # 900)
     - (148 * stuff row + 156 * control row + 312 * hra row) / 9000.
Proof.
  destruct row as [s c h].
  unfold expected_fip, expected_hr9, expected_bb9, expected_k9.
  cbn [stuff control hra]. split; field.
Qed.

(** X13 ([analyze_minor_league_v2.py], lines 65-70 and 90-95): a pitcher whose three ratings are at least those of
    another has a projected FIP that is at most the other's. *)
Theorem better_ratings_lower_expected_fip :
  forall r1 r2 : Scouting,
    stuff r1 <= stuff r2 -> control r1 <= control r2 -> hra r1 <= hra r2 ->
    expected_fip r2 <= expected_fip r1.
Proof.
  intros [s1 c1 h1] [s2 c2 h2]. cbn [stuff control hra]. intros Hs Hc Hh.
  destruct (expected_fip_affine (mkScouting s1 c1 h1)) as [_ E1].
  destruct (expected_fip_affine (mkScouting s2 c2 h2)) as [_ E2].
  rewrite E1, E2. cbn [stuff control hra].
  apply Qplus_le_r, Qopp_le_compat. apply Qmult_le_compat_r; [lra|].
  discriminate.
Qed.

(** X14 ([analyze_minor_league.py], lines 172-179, and the FIP formula of
    [analyze_minor_league_v2.py], lines 65-70):
    on the 20-80 rating scale the three expected rates are positive, and
    the projected FIP lies between 2.27 and 6.39; an [hra] rating above 86
    already gives a negative expected HR/9. *)
Theorem expected_rates_on_the_scale :
  forall row : Scouting,
    20 <= stuff row <= 80 -> 20 <= control row <= 80 -> 20 <= hra row <= 80 ->
    0 < expected_k9 (stuff row) /\
    0 < expected_bb9 (control row) /\
    0 < expected_hr9 (hra row) /\
    (227 # 100) <= expected_fip row <= (639 # 100) /\
    expected_hr9 87 < 0.
Proof.
  intros [s c h]. cbn [stuff control hra]. intros Hs Hc Hh.
  destruct (expected_fip_affine (mkScouting s c h)) as [_ E].
  rewrite E. cbn [stuff control hra].
  unfold expected_k9, expected_bb9, expected_hr9.
  assert ((148 * s + 156 * c + 312 * h) / 9000
          == (148 # 9000) * s + (156 # 9000) * c + (312 # 9000) * h) as ->
    by field.
  repeat split; lra.
Qed.

End ExpectedRates.

(** * Percentiles and the WAR line of the 2010 draft script *)

Section Percentiles.

Import Draft2010.

Lemma Qle_bool_total (x y : Q) : Qle_bool x y = false -> y <= x.
Proof.
  intros H. destruct (Qlt_le_dec x y) as [Hlt|Hle]; [|exact Hle].
  apply Qlt_le_weak, Qle_bool_iff in Hlt. congruence.
Qed.

Lemma insert_perm (x : Q) (l : list Q) : Permutation (Py.insert x l) (x :: l).
Proof.
  induction l as [|y l IH]; cbn [Py.insert]; [reflexivity|].
  destruct (Qle_bool x y); [reflexivity|].
  rewrite IH. apply perm_swap.
Qed.

Lemma sorted_perm (l : list Q) : Permutation (Py.sorted l) l.
Proof.
  induction l as [|x l IH]; cbn [Py.sorted fold_right]; [reflexivity|].
  fold (Py.sorted l). rewrite insert_perm. now constructor.
Qed.

Lemma insert_sorted (x : Q) (l : list Q) :
  StronglySorted Qle l -> StronglySorted Qle (Py.insert x l).
Proof.
  induction 1 as [|y l Hs IH Hy]; cbn [Py.insert].
  - repeat constructor.
  - destruct (Qle_bool x y) eqn:E.
    + apply Qle_bool_iff in E. constructor; [now constructor|].
      constructor; [exact E|].
      eapply Forall_impl; [|exact Hy]. intros z Hz. now apply Qle_trans with y.
    + apply Qle_bool_total in E. constructor; [exact IH|].
      apply Forall_forall. intros z Hz.
      apply (Permutation_in _ (insert_perm x l)) in Hz.
      destruct Hz as [<-|Hz]; [exact E|].
      rewrite Forall_forall in Hy. now apply Hy.
Qed.

Lemma sorted_sorted (l : list Q) : StronglySorted Qle (Py.sorted l).
Proof.
  induction l as [|x l IH]; cbn [Py.sorted fold_right]; [constructor|].
  now apply insert_sorted.
Qed.

Lemma sorted_length (l : list Q) : length (Py.sorted l) = length l.
Proof. apply Permutation_length, sorted_perm. Qed.

Lemma nth_sorted (s : list Q) :
  StronglySorted Qle s ->
  forall i j, (i <= j)%nat -> (j < length s)%nat -> nth i s 0 <= nth j s 0.
Proof.
  induction 1 as [|x s Hs IH Hx]; intros i j Hij Hj; [simpl in Hj; lia|].
  destruct i as [|i], j as [|j]; cbn [nth length] in *.
  - apply Qle_refl.
  - rewrite Forall_forall in Hx. apply Hx, nth_In. lia.
  - lia.
  - apply IH; lia.
Qed.

Lemma percentile_nth (values : list Q) (pct : nat) :
  values <> [] ->
  percentile values pct
  = nth (Nat.min (length values * pct / 100) (length values - 1))
        (Py.sorted values) 0.
Proof.
  intros H. unfold percentile. destruct values as [|v values]; [congruence|].
  now rewrite sorted_length.
Qed.

(** X15 ([analyze_2010.py], lines 57-63): [percentile] returns an order
    statistic of its argument.  For a non-empty list and a whole number of
    percent the result is one of the values; it is the least one at 0
    percent, the greatest one from 100 percent on, and it does not fall
    when the percentage grows.  For the empty list it is 0. *)
Theorem percentile_is_order_statistic :
  forall (values : list Q) (pct : nat),
    values <> [] ->
    In (percentile values pct) values /\
    (forall v, In v values -> percentile values 0 <= v) /\
    (forall v, (100 <= pct)%nat -> In v values -> v <= percentile values pct) /\
    (forall pct', (pct <= pct')%nat ->
                  percentile values pct <= percentile values pct') /\
    percentile [] pct = 0.
Proof.
  intros values pct Hne.
  assert (Hlen : (0 < length values)%nat)
    by (destruct values; [congruence | simpl; lia]).
  pose proof (sorted_length values) as Hsl.
  pose proof (sorted_sorted values) as Hss.
  split; [|split; [|split; [|split]]].
  - rewrite percentile_nth by assumption.
    apply (Permutation_in _ (sorted_perm values)), nth_In. lia.
  - intros v Hv. rewrite percentile_nth by assumption.
    apply (Permutation_in _ (Permutation_sym (sorted_perm values))) in Hv.
    destruct (In_nth _ _ 0 Hv) as (j & Hj & <-).
    apply nth_sorted; [assumption | | assumption].
    rewrite Nat.mul_0_r. cbn. lia.
  - intros v H100 Hv. rewrite percentile_nth by assumption.
    apply (Permutation_in _ (Permutation_sym (sorted_perm values))) in Hv.
    destruct (In_nth _ _ 0 Hv) as (j & Hj & <-).
    apply nth_sorted; [assumption | | lia].
    assert (length values <= length values * pct / 100)%nat.
    { apply Nat.div_le_lower_bound; [lia | nia]. }
    lia.
  - intros pct' Hle. rewrite !percentile_nth by assumption.
    apply nth_sorted; [assumption | | lia].
    assert (length values * pct / 100 <= length values * pct' / 100)%nat.
    { apply Nat.Div0.div_le_mono. nia. }
    lia.
  - reflexivity.
Qed.

(** X16 ([analyze_2010.py], lines 65-79): the median that [stats_line]
    prints is the value [percentile] gives at 50 percent (the upper median
    for an even count), and the line without players is the short one. *)
Theorem stats_line_median_is_percentile_50 :
  forall (vals : list Q) (label : string),
    vals <> [] ->
    nth (length vals / 2) (Py.sorted vals) 0 = percentile vals 50 /\
    stats_line vals label
    = ("  " ++ label ++ ": n=" ++ Fmt.rjust 4 (str_nat (length vals))
         ++ ", avg="
         ++ Fmt.rjust 6
              (Fmt.fixed false 1
                 (Fin (Vec.sum vals / inject_Z (Z.of_nat (length vals)))))
         ++ ", med=" ++ Fmt.rjust 5 (Fmt.fixed false 1 (Fin (percentile vals 50)))
         ++ ", "
         ++ "bust(<0)="
         ++ Fmt.rjust 4
              (Fmt.fixed false 0
                 (Fin (share (Py.count_if (fun v => Qgtb 0 v) vals) (length vals))))
         ++ "%, "
         ++ "WAR>0="
         ++ Fmt.rjust 4
              (Fmt.fixed false 0
                 (Fin (share (Py.count_if (fun v => Qgtb v 0) vals) (length vals))))
         ++ "%, "
         ++ "WAR>=3="
         ++ Fmt.rjust 4
              (Fmt.fixed false 0
                 (Fin (share (Py.count_if (fun v => Qle_bool 3 v) vals)
                         (length vals))))
         ++ "%, "
         ++ "WAR>=10="
         ++ Fmt.rjust 4
              (Fmt.fixed false 0
                 (Fin (share (Py.count_if (fun v => Qle_bool 10 v) vals)
                         (length vals))))
         ++ "%")%string /\
    stats_line [] label = ("  " ++ label ++ ": No players")%string.
Proof.
  intros vals label Hne.
  assert (Hlen : (0 < length vals)%nat)
    by (destruct vals; [congruence | simpl; lia]).
  assert (Emed : nth (length vals / 2) (Py.sorted vals) 0 = percentile vals 50).
  { rewrite percentile_nth by assumption. f_equal.
    replace (length vals * 50 / 100)%nat with (length vals / 2)%nat.
    - apply eq_sym, Nat.min_l.
      assert (length vals / 2 < length vals)%nat
        by (apply Nat.div_lt; lia). lia.
    - change 100%nat with (2 * 50)%nat.
      now rewrite Nat.Div0.div_mul_cancel_r by discriminate. }
  split; [exact Emed|]. split; [|reflexivity].
  unfold stats_line. destruct vals as [|v vals]; [congruence|].
  cbv zeta. now rewrite Emed.
Qed.

Lemma count_if_le {A} (p q : A -> bool) (l : list A) :
  (forall a, p a = true -> q a = true) ->
  (Py.count_if p l <= Py.count_if q l)%nat.
Proof.
  intros H. unfold Py.count_if. induction l as [|a l IH]; [simpl; lia|].
  cbn [filter]. destruct (p a) eqn:Ep.
  - rewrite (H a Ep). simpl. lia.
  - destruct (q a); simpl; lia.
Qed.

Lemma count_if_disjoint {A} (p q : A -> bool) (l : list A) :
  (forall a, p a = true -> q a = false) ->
  (Py.count_if p l + Py.count_if q l <= length l)%nat.
Proof.
  intros H. unfold Py.count_if. induction l as [|a l IH]; [simpl; lia|].
  cbn [filter]. destruct (p a) eqn:Ep.
  - rewrite (H a Ep). simpl. lia.
  - destruct (q a); simpl; lia.
Qed.

Lemma Qgtb_true (a b : Q) : Qgtb a b = true -> b < a.
Proof. unfold Qgtb. now destruct (Qlt_le_dec b a). Qed.

Lemma Qgtb_intro (a b : Q) : b < a -> Qgtb a b = true.
Proof.
  unfold Qgtb. destruct (Qlt_le_dec b a); [reflexivity | lra].
Qed.

(** X17 ([analyze_2010.py], lines 71-79): the buckets of [stats_line]
    nest.  Among any WAR values, those of at least 10 are among those of
    at least 3, which are among the positive ones; no value is both
    positive and a bust, so the two counts together do not exceed the
    number of values; and each share printed lies between 0 and 100
    percent. *)
Theorem war_buckets_nest :
  forall vals : list Q,
    let pos := Py.count_if (fun v => Qgtb v 0) vals in
    let top3 := Py.count_if (fun v => Qle_bool 3 v) vals in
    let top10 := Py.count_if (fun v => Qle_bool 10 v) vals in
    let bust := Py.count_if (fun v => Qgtb 0 v) vals in
    (top10 <= top3)%nat /\ (top3 <= pos)%nat /\
    (pos + bust <= length vals)%nat /\
    (vals <> [] ->
     Forall (fun k => 0 <= share k (length vals) <= 100) [pos; top3; top10; bust]).
Proof.
  intros vals pos top3 top10 bust.
  assert (H1 : (top10 <= top3)%nat).
  { apply count_if_le. intros v H. apply Qle_bool_iff in H.
    apply Qle_bool_iff. lra. }
  assert (H2 : (top3 <= pos)%nat).
  { apply count_if_le. intros v H. apply Qle_bool_iff in H.
    apply Qgtb_intro. lra. }
  assert (H3 : (pos + bust <= length vals)%nat).
  { apply count_if_disjoint. intros v H. apply Qgtb_true in H.
    unfold Qgtb. destruct (Qlt_le_dec v 0); [lra | reflexivity]. }
  repeat split; try assumption.
  intros Hne.
  assert (Hn : 0 < inject_Z (Z.of_nat (length vals))) by now apply length_pos_Q.
  assert (Hshare : forall k, (k <= length vals)%nat ->
                             0 <= share k (length vals) <= 100).
  { intros k Hk. unfold share. split.
    - apply Qle_shift_div_l; [exact Hn|]. rewrite Qmult_0_l.
      rewrite <- (Zle_Qle 0). lia.
    - apply Qle_shift_div_r; [exact Hn|].
      rewrite <- (inject_Z_mult 100). rewrite <- Zle_Qle. lia. }
  repeat constructor; apply Hshare; lia.
Qed.

End Percentiles.

(** * Draft rounds, traits and snapshots *)

Section Rounds.

Import Merged.

Local Open Scope string_scope.

Lemma keep_app (p : ascii -> bool) (s t : string) :
  Py.keep p (s ++ t) = Py.keep p s ++ Py.keep p t.
Proof.
  induction s as [|c s IH]; cbn [append Py.keep]; [reflexivity|].
  destruct (p c); cbn [append]; now rewrite IH.
Qed.

Lemma keep_digits (d : Decimal.uint) :
  Py.keep Py.isdigit (NilEmpty.string_of_uint d) = NilEmpty.string_of_uint d.
Proof.
  induction d; cbn [NilEmpty.string_of_uint Py.keep]; try reflexivity;
    (change (Py.isdigit _) with true; cbv iota; now rewrite IHd).
Qed.

Lemma digits_spec (n : N) :
  (String.length (Fmt.digits (Z.of_N n)) <= 4300)%nat ->
  exists c s,
    Fmt.digits (Z.of_N n) = String c s /\
    Py.keep Py.isdigit (String c s) = String c s /\
    Py.int (String c s) = Ok (Z.of_N n).
Proof.
  unfold Fmt.digits. rewrite N2Z.id. intros Hshort.
  assert (Hnn : N.to_uint n <> Decimal.Nil).
  { destruct n; [discriminate | apply Unsigned.to_uint_nonnil]. }
  assert (E : NilZero.string_of_uint (N.to_uint n)
              = NilEmpty.string_of_uint (N.to_uint n))
    by (unfold NilZero.string_of_uint; destruct (N.to_uint n); congruence).
  destruct (NilZero.string_of_uint (N.to_uint n)) as [|c s] eqn:Es.
  - exfalso. destruct (N.to_uint n); try congruence; discriminate.
  - exists c, s. split; [reflexivity|]. split.
    + rewrite E. apply keep_digits.
    + unfold Py.int. apply Nat.ltb_ge in Hshort. rewrite Hshort.
      rewrite <- Es, NilZero.usu by exact Hnn.
      now rewrite DecimalN.Unsigned.of_to.
Qed.

(** X18 ([analyze_merged.py], lines 87-93): [parse_round] reads the
    number out of a round or pick with letters around it.  When the text
    is the decimal numeral of [n] (of at most 4300 digits) with text free
    of digits before and after it (['9S'] for a supplemental round), the
    result is [n]; text without any digit, the empty text included, gives
    0. *)
Theorem parse_round_reads_the_number :
  forall (n : N) (before after : string),
    (String.length (Fmt.digits (Z.of_N n)) <= 4300)%nat ->
    Py.keep Py.isdigit before = "" ->
    Py.keep Py.isdigit after = "" ->
    parse_round (before ++ Fmt.digits (Z.of_N n) ++ after) = Ok (Z.of_N n) /\
    parse_round (before ++ after) = Ok 0%Z.
Proof.
  intros n pre suf Hshort Hpre Hsuf.
  destruct (digits_spec n Hshort) as (c & s & Ed & Ek & Ei). rewrite Ed. split.
  - unfold parse_round.
    destruct (String.eqb_spec (pre ++ String c s ++ suf) "") as [E|_].
    { destruct pre; discriminate E. }
    rewrite !keep_app, Hpre, Hsuf, Ek.
    cbn [append]. 
    assert (Hnil : forall t : string, t ++ "" = t)
      by (induction t as [|a t IH]; cbn; [reflexivity | now rewrite IH]).
    rewrite Hnil. cbn [String.eqb]. exact Ei.
  - unfold parse_round. rewrite keep_app, Hpre, Hsuf. cbn [append String.eqb].
    now destruct (String.eqb (pre ++ suf) "").
Qed.





End Rounds.

Section Traits.

Local Open Scope string_scope.

Lemma normalize_trait_range (val : option string) :
  Draft2010.normalize_trait val = None \/
  Draft2010.normalize_trait val = Some "H" \/
  Draft2010.normalize_trait val = Some "N" \/
  Draft2010.normalize_trait val = Some "L".
Proof.
  destruct val as [val|]; [|now left]. unfold Draft2010.normalize_trait.
  destruct (String.eqb val "" || String.eqb (Py.strip val) ""
            || String.eqb (Py.strip val) "U"); [now left|].
  cbv zeta.
  destruct (String.eqb _ "H" || String.eqb _ "HIGH"); [right; now left|].
  destruct (String.eqb _ "N" || String.eqb _ "NORMAL"); [right; right; now left|].
  destruct (String.eqb _ "L" || String.eqb _ "LOW"); [right; right; now right|].
  now left.
Qed.

(** X20 ([analyze_2010.py], lines 33-43; the same function in
    [analyze_drafts.py], lines 61-72, and [norm] of
    [triple_h_deep_dive.py], lines 24-30): [normalize_trait] returns
    [None] or one of ['H'], ['N'], ['L'], and it leaves its own results
    alone: normalising a normalised trait changes nothing. *)
Theorem normalize_trait_is_idempotent :
  forall val : option string,
    (Draft2010.normalize_trait val = None \/
     Draft2010.normalize_trait val = Some "H" \/
     Draft2010.normalize_trait val = Some "N" \/
     Draft2010.normalize_trait val = Some "L") /\
    Draft2010.normalize_trait (Draft2010.normalize_trait val)
    = Draft2010.normalize_trait val.
Proof.
  intros val. split; [apply normalize_trait_range|].
  destruct (normalize_trait_range val) as [E|[E|[E|E]]]; rewrite E; reflexivity.
Qed.

Import TripleH.

Lemma equals_exclusive (t : option string) (u v : string) :
  u <> v -> equals t u = true -> equals t v = false.
Proof.
  intros Huv. destruct t as [s|]; cbn [equals]; [|discriminate].
  intros H. apply String.eqb_eq in H. subst s. now apply String.eqb_neq.
Qed.

(** X21 ([triple_h_deep_dive.py], lines 144-150): the personality buckets
    are not a partition.  Every triple-H player is a double-H player and
    every double-H player has some H; a player with three normal traits
    has no H and no L; a triple-H player has no L; and the work ethic of a
    player is not both H and L. *)
Theorem personality_buckets_nest :
  forall p : Traits,
    (is_triple_h p = true -> is_double_h p = true) /\
    (is_double_h p = true -> is_any_h p = true) /\
    (is_all_normal p = true -> is_any_h p = false /\ is_any_low p = false) /\
    (is_triple_h p = true -> is_any_low p = false) /\
    (is_h_we p = true -> is_l_we p = false) /\
    (is_triple_h p = true -> is_h_we p = true).
Proof.
  intros [w i a].
  unfold is_triple_h, is_double_h, is_any_h, is_all_normal, is_any_low,
    is_h_we, is_l_we. cbn [we int ad].
  assert (HN : "H" <> "N") by discriminate.
  assert (HL : "H" <> "L") by discriminate.
  assert (NH : "N" <> "H") by discriminate.
  assert (NL : "N" <> "L") by discriminate.
  split; [|split; [|split; [|split; [|split]]]].
  - intros H. apply andb_prop in H as [H Ha]. apply andb_prop in H as [Hw Hi].
    now rewrite Hw, Hi, Ha.
  - destruct (equals w "H"), (equals i "H"), (equals a "H");
      cbn; congruence.
  - intros H. apply andb_prop in H as [H Ha]. apply andb_prop in H as [Hw Hi].
    now rewrite (equals_exclusive _ _ _ NH Hw), (equals_exclusive _ _ _ NH Hi),
      (equals_exclusive _ _ _ NH Ha), (equals_exclusive _ _ _ NL Hw),
      (equals_exclusive _ _ _ NL Hi), (equals_exclusive _ _ _ NL Ha).
  - intros H. apply andb_prop in H as [H Ha]. apply andb_prop in H as [Hw Hi].
    now rewrite (equals_exclusive _ _ _ HL Hw), (equals_exclusive _ _ _ HL Hi),
      (equals_exclusive _ _ _ HL Ha).
  - now apply equals_exclusive.
  - intros H. apply andb_prop in H as [H _]. now apply andb_prop in H as [Hw _].
Qed.

End Traits.

Section Snapshots.

Import Merged.

Context {V : Type}.

Lemma lookup_absent (d : list (Z * V)) (k : Z) :
  ~ In k (map fst d) -> lookup d k = None.
Proof.
  induction d as [|[k' v] d IH]; intros H; [reflexivity|].
  cbn [lookup]. destruct (Z.eqb_spec k k') as [->|N].
  - exfalso. apply H. now left.
  - apply IH. intros Hin. apply H. now right.
Qed.

Lemma lookup_present (d : list (Z * V)) (k : Z) :
  In k (map fst d) -> lookup d k <> None.
Proof.
  induction d as [|[k' v] d IH]; intros H; [contradiction|].
  cbn [lookup]. destruct (Z.eqb_spec k k') as [->|N]; [discriminate|].
  destruct H as [H|H]; [cbn in H; congruence | now apply IH].
Qed.

Lemma contains_iff (d : list (Z * V)) (k : Z) :
  contains d k = true <-> In k (map fst d).
Proof.
  unfold contains. split.
  - intros H. destruct (in_dec Z.eq_dec k (map fst d)) as [Hin|Hn]; [exact Hin|].
    now rewrite (lookup_absent d k Hn) in H.
  - intros H. apply lookup_present in H. now destruct (lookup d k).
Qed.

Lemma store_absent (d : list (Z * V)) (k : Z) (v : V) :
  ~ In k (map fst d) -> store d k v = (d ++ [(k, v)])%list.
Proof.
  induction d as [|[k' v'] d IH]; intros H; [reflexivity|].
  cbn [store]. destruct (Z.eqb_spec k k') as [->|N].
  - exfalso. apply H. now left.
  - cbn [app]. rewrite IH; [reflexivity|]. intros Hin. apply H. now right.
Qed.

Lemma copy_all (a acc : list (Z * V)) :
  NoDup (map fst (acc ++ a)) ->
  fold_left (fun m kv => store m (fst kv) (snd kv)) a acc = (acc ++ a)%list.
Proof.
  revert acc. induction a as [|[k v] a IH]; intros acc Hnd; cbn [fold_left].
  - now rewrite app_nil_r.
  - cbn [fst snd]. rewrite store_absent.
    + rewrite IH; rewrite <- app_assoc; [reflexivity | exact Hnd].
    + rewrite map_app in Hnd. cbn [map fst] in Hnd.
      apply NoDup_remove_2 in Hnd. intros Hin. apply Hnd.
      apply in_or_app. now left.
Qed.

Lemma add_missing (b acc : list (Z * V)) :
  NoDup (map fst b) ->
  fold_left (fun m kv => if negb (contains m (fst kv))
                         then store m (fst kv) (snd kv) else m) b acc
  = (acc ++ filter (fun kv => negb (contains acc (fst kv))) b)%list.
Proof.
  revert acc. induction b as [|[k v] b IH]; intros acc Hnd; cbn [fold_left filter].
  - now rewrite app_nil_r.
  - cbn [fst snd map] in *. inversion Hnd as [|? ? Hk Hnd']; subst.
    destruct (contains acc k) eqn:Ec; cbn [negb].
    + now apply IH.
    + assert (Hn : ~ In k (map fst acc)).
      { intros Hin. apply contains_iff in Hin. congruence. }
      rewrite store_absent by exact Hn. rewrite IH by exact Hnd'.
      rewrite <- app_assoc. cbn [app]. f_equal. f_equal.
      apply filter_ext_in. intros [k' v'] Hin. cbn [fst].
      f_equal. unfold contains.
      assert (k' <> k).
      { intros ->. apply Hk. apply in_map_iff. now exists (k, v'). }
      clear - H. induction acc as [|[k0 v0] acc IHacc]; cbn [app lookup].
      * destruct (Z.eqb_spec k' k); [congruence | reflexivity].
      * destruct (Z.eqb k' k0); [reflexivity | exact IHacc].
Qed.

Lemma merge_spec (a b : list (Z * V)) :
  NoDup (map fst a) -> NoDup (map fst b) ->
  merge a b = (a ++ filter (fun kv => negb (contains a (fst kv))) b)%list.
Proof.
  intros Ha Hb. unfold merge.
  rewrite (copy_all a []) by exact Ha. cbn [app]. now apply add_missing.
Qed.

Lemma lookup_app (d e : list (Z * V)) (k : Z) :
  lookup (d ++ e) k = match lookup d k with
                      | Some v => Some v
                      | None => lookup e k
                      end.
Proof.
  induction d as [|[k' v] d IH]; cbn [app lookup]; [reflexivity|].
  now destruct (Z.eqb k k').
Qed.

Lemma lookup_filter_other (a b : list (Z * V)) (k : Z) :
  lookup a k = None ->
  lookup (filter (fun kv => negb (contains a (fst kv))) b) k = lookup b k.
Proof.
  intros Ha. induction b as [|[k' v] b IH]; cbn [filter lookup]; [reflexivity|].
  cbn [fst]. destruct (Z.eqb_spec k k') as [<-|N].
  - unfold contains. rewrite Ha. cbn [negb lookup]. now rewrite Z.eqb_refl.
  - destruct (negb (contains a k')); cbn [lookup]; [|exact IH].
    destruct (Z.eqb_spec k k'); [congruence | exact IH].
Qed.

(** X22 ([analyze_merged.py], lines 190-200): the merged dictionary is
    the union of the two snapshots with the first snapshot winning.  For
    two dictionaries (no key twice), looking a player up in the merge
    gives the entry of the 2010 snapshot when there is one and that of the
    2017 snapshot otherwise; the entries are those of 2010 followed by
    the new ones of 2017, in order; and the three counts printed (only in
    2010, only in 2017, in both) add up to the size of the merge. *)
Theorem merge_prefers_first_snapshot :
  forall snap_2010 snap_2017 : list (Z * V),
    NoDup (map fst snap_2010) -> NoDup (map fst snap_2017) ->
    (forall k, lookup (merge snap_2010 snap_2017) k
               = match lookup snap_2010 k with
                 | Some p => Some p
                 | None => lookup snap_2017 k
                 end) /\
    merge snap_2010 snap_2017
    = (snap_2010
       ++ filter (fun kv => negb (contains snap_2010 (fst kv))) snap_2017)%list /\
    length (merge snap_2010 snap_2017)
    = (only_in snap_2010 snap_2017 + only_in snap_2017 snap_2010
       + in_both snap_2010 snap_2017)%nat.
Proof.
  intros a b Ha Hb. rewrite (merge_spec a b Ha Hb). split; [|split].
  - intros k. rewrite lookup_app.
    destruct (lookup a k) eqn:E; [reflexivity|]. now apply lookup_filter_other.
  - reflexivity.
  - rewrite length_app. unfold only_in, in_both.
    pose proof (filter_split (fun kv => contains b (fst kv)) a). lia.
Qed.

End Snapshots.

Section Drafted.

Import Merged.

Lemma filter_length_split {A} (p q r : A -> bool) (l : list A) :
  (forall a, p a = q a || r a) -> (forall a, q a = true -> r a = false) ->
  length (filter p l) = (length (filter q l) + length (filter r l))%nat.
Proof.
  intros Hp Hd. induction l as [|a l IH]; [reflexivity|].
  cbn [filter]. rewrite Hp. destruct (q a) eqn:Eq.
  - rewrite (Hd a Eq). cbn [orb length]. lia.
  - destruct (r a); cbn [orb length]; lia.
Qed.

(** X23 ([analyze_merged.py], lines 204-208): [get_drafted] returns, in
    the order of the dictionary, exactly the players drafted in a year of
    the range (bounds included) in a round above 0.  Splitting the range
    of years at a year splits the pool: the pool of [lo..hi] has as many
    players as the pools of [lo..mid] and [mid+1..hi] together. *)
Theorem get_drafted_splits_by_year :
  forall (players : list (Z * Player)) (lo mid hi : Z),
    (lo <= mid + 1)%Z -> (mid <= hi)%Z ->
    (forall p, In p (get_drafted players lo hi) <->
               In p (map snd players) /\
               (lo <= draft_year p <= hi)%Z /\ (0 < draft_round p)%Z) /\
    length (get_drafted players lo hi)
    = (length (get_drafted players lo mid)
       + length (get_drafted players (mid + 1) hi))%nat.
Proof.
  intros players lo mid hi Hlo Hhi. split.
  - intros p. unfold get_drafted. rewrite filter_In.
    rewrite !andb_true_iff, !Z.leb_le, Z.ltb_lt. tauto.
  - unfold get_drafted. apply filter_length_split.
    + intros p.
      destruct (Z.leb_spec lo (draft_year p)), (Z.leb_spec (draft_year p) hi),
        (Z.leb_spec (draft_year p) mid), (Z.leb_spec (mid + 1) (draft_year p)),
        (Z.ltb_spec 0 (draft_round p)); cbn; try reflexivity; lia.
    + intros p.
      destruct (Z.leb_spec lo (draft_year p)), (Z.leb_spec (draft_year p) hi),
        (Z.leb_spec (draft_year p) mid), (Z.leb_spec (mid + 1) (draft_year p)),
        (Z.ltb_spec 0 (draft_round p)); cbn; try reflexivity; try discriminate; lia.
Qed.

End Drafted.

(** * The polynomial variant *)

Section Polynomial.

Variable sk : Estimators.

Lemma finite_row_inv (r : list pyfloat) (l : list Q) :
  Sklearn.finite_row r = Some l -> r = map Fin l.
Proof.
  revert l. unfold Sklearn.finite_row.
  induction r as [|x r IH]; intros l; cbn [fold_right].
  - now intros [= <-].
  - destruct x as [q|]; [|discriminate].
    destruct (fold_right _ _ r) as [l'|]; [|discriminate].
    intros [= <-]. cbn [map]. now rewrite (IH l' eq_refl).
Qed.

Lemma finite_rows_inv (X : list (list pyfloat)) (Xq : list (list Q)) :
  Sklearn.finite_rows X = Some Xq -> X = map (map Fin) Xq.
Proof.
  revert Xq. unfold Sklearn.finite_rows.
  induction X as [|r X IH]; intros Xq; cbn [fold_right].
  - now intros [= <-].
  - destruct (Sklearn.finite_row r) as [r'|] eqn:Er; [|discriminate].
    destruct (fold_right _ _ X) as [l'|]; [|discriminate].
    intros [= <-]. cbn [map].
    now rewrite (finite_row_inv _ _ Er), (IH l' eq_refl).
Qed.

(** X24 (lines 66-81): what [analyze_polynomial] fits at degree 2.  The
    expansion of a row of five ratings has twenty entries and no constant
    one: the five ratings, then the fifteen products of two ratings, each
    pair once, squares included, in the order of the ratings.  The model
    returned is the [Ridge] fit with regularisation strength 1 on these
    expanded rows and the output column. *)
Theorem polynomial_fit_uses_twenty_features :
  (forall a b c d e : Q,
      Forall2 Qeq
        (Sklearn.poly_row (mkPoly 2) [a; b; c; d; e])
        [a; b; c; d; e;
         a * a; a * b; a * c; a * d; a * e;
         b * b; b * c; b * d; b * e;
         c * c; c * d; c * e;
         d * d; d * e;
         e * e]) /\
  (forall (self : FormulaAnalyzer) (col : string) m poly r2 mae,
      analyze_polynomial sk self col 2 = Ok (m, poly, r2, mae) ->
      poly = mkPoly 2 /\
      exists Xq y,
        getitem_list (df self) INPUT_COLS = Ok (map (map Fin) Xq) /\
        getitem (df self) col = Ok y /\
        Forall (fun r => length r = 5%nat) Xq /\
        Ridge_fit sk 1
          (map (map Fin) (map (Sklearn.poly_row (mkPoly 2)) Xq)) y = Ok m).
Proof.
  split.
  - intros a b c d e. cbv [Sklearn.poly_row Sklearn.monomials degree seq map
                            concat app].
    repeat constructor; ring.
  - intros self col m poly r2 mae H.
    destruct (analyze_polynomial_inv sk _ _ _ _ _ _ _ H)
      as (X & y & Xp & p & EX & Ey & Et & Em & -> & _).
    split; [reflexivity|].
    unfold Sklearn.fit_transform, Sklearn.check_array in Et.
    destruct X as [|r0 X0]; [discriminate|].
    destruct (Sklearn.finite_rows (r0 :: X0)) as [Xq|] eqn:E; [|discriminate].
    cbn [bind] in Et. injection Et as <-.
    pose proof (finite_rows_inv _ _ E) as EXq.
    exists Xq, y. rewrite <- EXq. repeat split; try assumption.
    + unfold getitem_list in EX.
      destruct (indices_of INPUT_COLS (columns (df self))) as [idx|] eqn:Ei;
        [|discriminate].
      cbn [bind] in EX. injection EX as EX.
      assert (Hidx : length idx = 5%nat).
      { clear - Ei. cbn [indices_of INPUT_COLS] in Ei.
        repeat (match type of Ei with
                | context [index_of ?c ?l] => destruct (index_of c l); [|discriminate]
                end; cbn [bind] in Ei).
        now injection Ei as <-. }
      apply Forall_forall. intros r Hr.
      assert (Hin : In (map Fin r) (r0 :: X0))
        by (rewrite EXq; now apply in_map).
      rewrite <- EX in Hin. apply in_map_iff in Hin as (row & Erow & _).
      apply (f_equal (@length _)) in Erow. rewrite !length_map in Erow.
      congruence.
    + now rewrite map_map.
Qed.

End Polynomial.

(** * The further properties on example data *)

Section MoreExamples.

Import Demo.
Local Open Scope string_scope.



Lemma run_fills_dictionaries_in_order_witness :
  exists out' self' results,
    run_analysis Exact.estimators (pandas_with no_hr_csv)
      (analyzer_of no_hr_csv) [] = (out', Ok (self', results)) /\
    map stat results = ["hits allowed"; "bb"; "k"; "ip"] /\
    map fst (models self') = ["hits allowed"; "bb"; "k"; "ip"].
Proof.
  do 3 eexists.
  match goal with
  | |- ?A /\ _ => assert (H : A) by (vm_compute; reflexivity)
  end.
  split; [exact H|].
  destruct (run_fills_dictionaries_in_order Exact.estimators
              (pandas_with no_hr_csv) (analyzer_of no_hr_csv) _ _ _ _
              eq_refl eq_refl H)
    as (H1 & H2 & _).
  split; [exact H1 | exact H2].
Defined.

Lemma summary_repeats_linear_r2_witness :
  exists out' self' results,
    run_analysis Exact.estimators (pandas_with parabola_csv)
      (analyzer_of parabola_csv) [] = (out', Ok (self', results)) /\
    print_summary self' []
    = ([nl ++ rule; "SUMMARY: DERIVED FORMULAS"; rule;
        nl ++ "Note: BABIP in these formulas uses editor scale (1-250).";
        "      To use with UI scale (20-80), convert first:";
        "      babip_editor = 1 + (babip_ui - 20) * 249 / 60";
        "";
        "hr = 0.67 ";
        "  (R² = 0.000)" ++ nl], Ok tt).
Proof.
  do 3 eexists.
  match goal with
  | |- ?A /\ _ => assert (H : A) by (vm_compute; reflexivity)
  end.
  split; [exact H|].
  rewrite (summary_repeats_linear_r2 Exact.estimators (pandas_with parabola_csv)
             (analyzer_of parabola_csv) _ _ _ _ [] eq_refl eq_refl H).
  vm_compute. reflexivity.
Defined.

Lemma rerun_changes_nothing_witness :
  exists out' self' results,
    run_analysis Exact.estimators (pandas_with line_csv)
      (analyzer_of line_csv) [] = (out', Ok (self', results)) /\
    run_analysis Exact.estimators (pandas_with line_csv) self' []
    = (out', Ok (self', results)).
Proof.
  do 3 eexists.
  match goal with
  | |- ?A /\ _ => assert (H : A) by (vm_compute; reflexivity)
  end.
  split; [exact H|].
  exact (rerun_changes_nothing Exact.estimators (pandas_with line_csv)
           _ _ _ _ _ H).
Defined.




Lemma main_stops_on_unreadable_file_witness :
  main Exact.estimators
    (mkPandas (fun _ => Raise (ValueError "No columns to parse from file"))
       (fun _ => None) corr)
    ["analyze_ootp_data.py"; "empty.csv"] []
  = ([], Raise (ValueError "No columns to parse from file")).
Proof.
  exact (main_stops_on_unreadable_file
           (mkPandas (fun _ => Raise (ValueError "No columns to parse from file"))
              (fun _ => None) corr)
           Exact.estimators "analyze_ootp_data.py" "empty.csv" [] _ [] eq_refl).
Defined.

Lemma empty_has_inputs :
  forall c, In c INPUT_COLS -> has_column (df (analyzer_of empty_csv)) c = true.
Proof.
  intros c Hc. cbn in Hc.
  repeat (destruct Hc as [<-|Hc]; [reflexivity|]). contradiction.
Qed.

Lemma empty_table_ends_run_at_first_fit_witness :
  exists out',
    run_analysis Exact.estimators (pandas_with empty_csv)
      (analyzer_of empty_csv) []
    = (out', Raise (ValueError "Found array with 0 sample(s)")).
Proof.
  apply (empty_table_ends_run_at_first_fit Exact.estimators
           (pandas_with empty_csv) (analyzer_of empty_csv)
           (ValueError "Found array with 0 sample(s)") [] eq_refl
           empty_has_inputs).
  - exists "hr". split; [right; left; reflexivity | reflexivity].
  - reflexivity.
Defined.

Lemma constructor_prints_input_ranges_witness :
  __init__ (pandas_with messy_csv) "data.csv" []
  = (["Loaded 2 rows of data" ++ nl; "Input ranges:"; "  stuff: 40 - 60"; ""],
     Ok (mkAnalyzer (load (fun _ => None) messy_csv) [] [])).
Proof.
  rewrite (proj1 (constructor_prints_input_ranges (pandas_with messy_csv)
                    "data.csv" messy_csv [] eq_refl)).
  vm_compute. reflexivity.
Defined.

Lemma better_ratings_lower_expected_fip_witness :
  MinorLeague.expected_fip (MinorLeague.mkScouting 60 60 60)
  <= MinorLeague.expected_fip (MinorLeague.mkScouting 40 40 40).
Proof.
  apply (better_ratings_lower_expected_fip
           (MinorLeague.mkScouting 40 40 40) (MinorLeague.mkScouting 60 60 60));
    cbn; lra.
Defined.

Lemma expected_rates_on_the_scale_witness :
  0 < MinorLeague.expected_k9 50 /\
  0 < MinorLeague.expected_bb9 50 /\
  0 < MinorLeague.expected_hr9 50 /\
  (227 # 100) <= MinorLeague.expected_fip (MinorLeague.mkScouting 50 50 50)
  <= (639 # 100) /\
  MinorLeague.expected_hr9 87 < 0.
Proof.
  apply (expected_rates_on_the_scale (MinorLeague.mkScouting 50 50 50));
    cbn; lra.
Defined.

Lemma percentile_is_order_statistic_witness :
  In (Draft2010.percentile [3; 1; 2] 50) [3; 1; 2] /\
  Draft2010.percentile [3; 1; 2] 50 = 2 /\
  Draft2010.percentile [3; 1; 2] 0 <= 3.
Proof.
  destruct (percentile_is_order_statistic [3; 1; 2] 50)
    as (H1 & H2 & _); [discriminate|].
  split; [exact H1|]. split; [reflexivity|].
  apply H2. left. reflexivity.
Defined.

Lemma stats_line_median_is_percentile_50_witness :
  nth (length [3; 1; 2; -1] / 2) (Py.sorted [3; 1; 2; -1]) 0
  = Draft2010.percentile [3; 1; 2; -1] 50 /\
  Draft2010.stats_line [3; 1; 2; -1] "R1"
  = "  R1: n=   4, avg=   1.2, med=  2.0, bust(<0)=  25%, WAR>0=  75%, WAR>=3=  25%, WAR>=10=   0%".
Proof.
  destruct (stats_line_median_is_percentile_50 [3; 1; 2; -1] "R1")
    as (H1 & H2 & _); [discriminate|].
  split; [exact H1|]. rewrite H2. vm_compute. reflexivity.
Defined.

Lemma parse_round_reads_the_number_witness :
  Merged.parse_round "9S" = Ok 9%Z /\ Merged.parse_round "S" = Ok 0%Z.
Proof.
  apply (parse_round_reads_the_number 9%N "" "S");
    [vm_compute; lia | reflexivity | reflexivity].
Defined.


Lemma nodup_12 : NoDup (map fst [(1%Z, "a"); (2%Z, "b")]).
Proof.
  repeat constructor; cbn; intuition discriminate.
Qed.

Lemma nodup_23 : NoDup (map fst [(2%Z, "B"); (3%Z, "c")]).
Proof.
  repeat constructor; cbn; intuition discriminate.
Qed.

Lemma merge_prefers_first_snapshot_witness :
  Merged.merge [(1%Z, "a"); (2%Z, "b")] [(2%Z, "B"); (3%Z, "c")]
  = [(1%Z, "a"); (2%Z, "b"); (3%Z, "c")] /\
  length (Merged.merge [(1%Z, "a"); (2%Z, "b")] [(2%Z, "B"); (3%Z, "c")])
  = (1 + 1 + 1)%nat.
Proof.
  destruct (merge_prefers_first_snapshot
              [(1%Z, "a"); (2%Z, "b")] [(2%Z, "B"); (3%Z, "c")]
              nodup_12 nodup_23) as (_ & H2 & H3).
  split; [exact H2 | exact H3].
Defined.

Lemma get_drafted_splits_by_year_witness :
  length (Merged.get_drafted
            [(1%Z, Merged.mkPlayer 1 "SP" "A" 2008 1 3);
             (2%Z, Merged.mkPlayer 2 "C" "B" 2012 2 40);
             (3%Z, Merged.mkPlayer 3 "RP" "C" 2010 0 0)] 2008 2017)
  = (length (Merged.get_drafted
               [(1%Z, Merged.mkPlayer 1 "SP" "A" 2008 1 3);
                (2%Z, Merged.mkPlayer 2 "C" "B" 2012 2 40);
                (3%Z, Merged.mkPlayer 3 "RP" "C" 2010 0 0)] 2008 2010)
     + length (Merged.get_drafted
                 [(1%Z, Merged.mkPlayer 1 "SP" "A" 2008 1 3);
                  (2%Z, Merged.mkPlayer 2 "C" "B" 2012 2 40);
                  (3%Z, Merged.mkPlayer 3 "RP" "C" 2010 0 0)] (2010 + 1) 2017))%nat.
Proof.
  apply (get_drafted_splits_by_year
           [(1%Z, Merged.mkPlayer 1 "SP" "A" 2008 1 3);
            (2%Z, Merged.mkPlayer 2 "C" "B" 2012 2 40);
            (3%Z, Merged.mkPlayer 3 "RP" "C" 2010 0 0)] 2008 2010 2017); lia.
Defined.

End MoreExamples.

(** * The two BABIP scales *)

Section Scales.

Import Babip.


End Scales.
